(** * urlMap: a shallow embedding of the URL shortener's store

    The development follows [src/key.go] (the key generator) and
    [src/store.go] (the primary [URLStore] with its save queue and log
    replay, and the [ProxyStore] that caches and delegates over RPC).

    Conventions.
    - A Go [int] is a [Z]; [%] and [/] are Go's truncated remainder and
      quotient ([Z.rem], [Z.quot]).
    - A [[]byte] is a list of bytes together with its capacity.
    - A Go [map[string]string] is a [gmap string string].
    - A run-time panic is an explicit outcome, not an error value.
    - A method with a pointer receiver returns the receiver's new state;
      an output parameter ([*url], [*key]) is passed in and returned. *)

From Stdlib Require Import ZArith Lia List Strings.String Strings.Byte.
From stdpp Require Import gmap strings list fin_maps.

Local Open Scope Z_scope.

(** ** Outcomes of running Go code *)

(** The run-time faults the modelled code can raise. *)
Inductive panic : Type :=
  | IndexOutOfRange (i len : Z)        (* index out of range [i] with length len *)
  | SliceBoundsOutOfRange (i cap : Z)  (* slice bounds out of range *)
  | MakesliceCapOutOfRange             (* makeslice: cap out of range *)
  | NilPointerDereference.             (* invalid memory address or nil pointer dereference *)

(** What a call can end in: a normal return, a panic, a wait on a full
    channel that nothing in the model drains, or an exhausted iteration
    budget of the model itself. *)
Inductive outcome (A : Type) : Type :=
  | Ret (a : A)
  | Panic (p : panic)
  | Blocked
  | OutOfFuel.
Arguments Ret {A} a.
Arguments Panic {A} p.
Arguments Blocked {A}.
Arguments OutOfFuel {A}.

(** Go's [error] values that the store produces itself, and those that
    reach it from the outside (the file system, the decoder, the RPC
    layer). [nil] is [None] in an [option error]. *)
Inductive error : Type :=
  | ErrKeyNotFound          (* errors.New("key not found") *)
  | ErrAlreadyExists        (* errors.New("shortURL already exists") *)
  | ErrOpen                 (* os.Open failed *)
  | EOF                     (* io.EOF *)
  | ErrDecode               (* any other error of json.Decoder.Decode *)
  | ErrRemote (msg : string). (* an error returned by rpc.Client.Call or rpc.DialHTTP *)

(** Sequencing: the first abnormal outcome ends the computation. *)
Definition outcome_bind {A B} (f : A → outcome B) (m : outcome A) : outcome B :=
  match m with
  | Ret a => f a
  | Panic p => Panic p
  | Blocked => Blocked
  | OutOfFuel => OutOfFuel
  end.

#[export] Instance outcome_mbind : MBind outcome := @outcome_bind.
#[export] Instance outcome_mret : MRet outcome := @Ret.

(** ** Byte slices *)

Module Slice.

(** A slice: its elements (the length is the list's) and its capacity. *)
Record t : Type := mk { elems : list byte; cap : Z }.

Definition len (s : t) : Z := Z.of_nat (length (elems s)).

(** [make([]byte, l, c)]. *)
Definition make (l c : Z) : outcome t :=
  if (l <? 0) || (c <? l)
  then Panic MakesliceCapOutOfRange
  else Ret (mk (repeat x00 (Z.to_nat l)) c).

(** [s[i] = b]: the index is checked against the length, not the
    capacity. *)
Definition store (s : t) (i : Z) (b : byte) : outcome t :=
  if (0 <=? i) && (i <? len s)
  then Ret (mk (<[Z.to_nat i := b]> (elems s)) (cap s))
  else Panic (IndexOutOfRange i (len s)).

(** [a[i]] on an array or slice with elements [l]. *)
Definition load (l : list byte) (i : Z) : outcome byte :=
  if (0 <=? i) && (i <? Z.of_nat (length l))
  then Ret (nth (Z.to_nat i) l x00)
  else Panic (IndexOutOfRange i (Z.of_nat (length l))).

(** [string(s[i:])]. *)
Definition string_from (s : t) (i : Z) : outcome string :=
  if (0 <=? i) && (i <=? len s)
  then Ret (string_of_list_byte (drop (Z.to_nat i) (elems s)))
  else Panic (SliceBoundsOutOfRange i (len s)).

End Slice.

(** ** key.go *)

(** [var keyChar = []byte("0123456789ABC...XYZabc...xyz")]. *)
Definition keyChar : list byte :=
  list_byte_of_string
    "0123456789ABCDEFGHIJKLMNOPQRSTUVWXYZabcdefghijklmnopqrstuvwxyz".

(** The loop of [genKey],
    [for n > 0 && i >= 0 { i--; j := n % l; n = (n - j) / l; s[i] = keyChar[j] }],
    returning the final [i] and [s]. *)
Fixpoint genKey_loop (fuel : nat) (l n i : Z) (s : Slice.t)
  : outcome (Z * Slice.t) :=
  if (0 <? n) && (0 <=? i) then
    match fuel with
    | O => OutOfFuel
    | S fuel' =>
        let i := i - 1 in
        let j := Z.rem n l in
        let n := Z.quot (n - j) l in
        b ← Slice.load keyChar j;
        s ← Slice.store s i b;
        genKey_loop fuel' l n i s
    end
  else Ret (i, s).

(** [func genKey(n int) string]. A positive [n] shrinks in every round
    of the loop, so [n] rounds are always enough. The argument is a
    count of map entries; nothing here overflows a 64-bit [int]. *)
Definition genKey (n : Z) : outcome string :=
  if n =? 0 then
    b ← Slice.load keyChar 0;
    Ret (string_of_list_byte [b])
  else
    let l := Z.of_nat (length keyChar) in
    s ← Slice.make 0 n;
    let i := Slice.len s in
    '(i, s) ← genKey_loop (Z.to_nat n) l n i s;
    Slice.string_from s i.

(** ** store.go: the primary store *)

(** [type record struct { Key, URL string }]. *)
Record record : Type := { Key : string; URL : string }.

#[export] Instance record_eq_dec : EqDecision record.
Proof. solve_decision. Defined.

(** [const saveQueueLength = 1000]. *)
Definition saveQueueLength : nat := 1000.

(** The log file as [json.Decoder] sees it: a sequence of chunks, each
    either the serialization of a record or bytes that [Decode] rejects
    (a malformed or truncated object). *)
Inductive chunk : Type :=
  | WellFormed (r : record)
  | Malformed.

(** [d.Decode(&r)]: the next record, or [io.EOF] at the end of the
    stream, or another error at the first chunk that does not decode. *)
Definition Decode (d : list chunk) : (record + error) * list chunk :=
  match d with
  | [] => (inr EOF, [])
  | WellFormed r :: d' => (inl r, d')
  | Malformed :: d' => (inr ErrDecode, d')
  end.

Module URLStore.

(** [type URLStore struct { urls map[string]string; mu sync.RWMutex;
    save chan record }]. The map is owned by the store ([All], the one
    method that hands a map out, is in [GoHeap] below). [save] is
    [None] for a nil channel and otherwise the buffered records, oldest
    first. Every method holds [mu] from entry to return, so a method
    is one atomic step and the lock itself is not represented. *)
Record t : Type := mk { urls : gmap string string; save : option (list record) }.

(** [func (s *URLStore) Get(key, url *string) error]: the new content
    of [*url] and the error. *)
Definition Get (s : t) (key url : string) : (string * option error) * t :=
  match urls s !! key with
  | Some u => ((u, None), s)
  | None => ((url, Some ErrKeyNotFound), s)
  end.

(** [func (s *URLStore) Set(shortURL, longURL *string) error]
    ([Set] is a reserved word here). *)
Definition Set_ (s : t) (shortURL longURL : string) : option error * t :=
  match urls s !! shortURL with
  | Some _ => (Some ErrAlreadyExists, s)
  | None => (None, mk (<[shortURL := longURL]> (urls s)) (save s))
  end.

(** [func (s *URLStore) Delete(shortURL string)]. *)
Definition Delete (s : t) (shortURL : string) : t :=
  mk (delete shortURL (urls s)) (save s).

(** [func (s *URLStore) Count() int]. *)
Definition Count (s : t) : Z := Z.of_nat (size (urls s)).

(** [s.save <- r] on a non-nil channel: [None] when the buffer is full
    and the sender has to wait. *)
Definition send (q : list record) (r : record) : option (list record) :=
  if decide (length q < saveQueueLength)%nat then Some (q ++ [r]) else None.

(** One [Set_] per record, in order, errors ignored: what the replay
    of a log does, and what other goroutines do to the store when
    their writes land between two steps of a call. *)
Definition Set_each (rs : list record) (s : t) : t :=
  foldl (λ s r, (Set_ s (Key r) (URL r)).2) s rs.

(** [func (s *URLStore) Put(url, key *string) error], the loop
<<
    for {
        *key = genKey(s.Count())
        if err := s.Set(key, url); err == nil { break }
        if s.save != nil { s.save <- record{*key, *url} }
    }
    return nil
>>
    [Count] and [Set_] are separate critical sections: [others] gives,
    round by round, the writes of other goroutines that land between
    them; once it is used up the call runs alone. The result is the
    content of [*key] and the returned error, with the store. *)
Fixpoint Put_loop (fuel : nat) (others : list (list record))
    (s : t) (url key : string) : outcome (string * option error) * t :=
  match fuel with
  | O => (OutOfFuel, s)
  | S fuel' =>
      match genKey (Count s) with
      | Ret k =>
          let key := k in
          let s := Set_each (hd [] others) s in
          match Set_ s key url with
          | (None, s) => (Ret (key, None), s)
          | (Some _, s) =>
              match save s with
              | Some q =>
                  match send q {| Key := key; URL := url |} with
                  | Some q' =>
                      Put_loop fuel' (tl others) (mk (urls s) (Some q')) url key
                  | None => (Blocked, s)
                  end
              | None => Put_loop fuel' (tl others) s url key
              end
          end
      | Panic p => (Panic p, s)
      | Blocked => (Blocked, s)
      | OutOfFuel => (OutOfFuel, s)
      end
  end.

(** [Put] with no other goroutine at work. *)
Definition Put (fuel : nat) (s : t) (url key : string)
  : outcome (string * option error) * t :=
  Put_loop fuel [] s url key.

(** The decoding loop of [load],
    [for err == nil { var r record; if err = d.Decode(&r); err == nil { s.Set(&r.Key, &r.URL) } }],
    returning the error that ended it. *)
Fixpoint load_loop (d : list chunk) (s : t) : error * t :=
  match d with
  | [] => (EOF, s)
  | WellFormed r :: d' => load_loop d' (Set_ s (Key r) (URL r)).2
  | Malformed :: _ => (ErrDecode, s)
  end.

(** [func (s *URLStore) load(filename string) error]; [open] is
    [os.Open], [None] when the file cannot be opened. The second
    component is what the call logs. *)
Definition load (open : string → option (list chunk)) (s : t) (filename : string)
  : (option error * list string) * t :=
  match open filename with
  | None => ((Some ErrOpen, ["Error opening URLStore:"%string]), s)
  | Some d =>
      match load_loop d s with
      | (EOF, s) => ((None, []), s)
      | (err, s) => ((Some err, ["Error decoding URLStore:"%string]), s)
      end
  end.

(** [func NewURLStore(filename string) *URLStore]. The goroutine
    started by [go s.saveLoop(filename)] only receives from [save] and
    writes to the file; it does not touch the returned store's map. *)
Definition NewURLStore (open : string → option (list chunk)) (filename : string)
  : t * list string :=
  let s := mk ∅ None in
  if decide (filename ≠ ""%string) then
    let s := mk (urls s) (Some []) in
    match load open s filename with
    | ((Some err, log), s) => (s, log ++ ["Error opening URLStore:"%string])
    | ((None, log), s) => (s, log)
    end
  else (s, []).

(** The body of the loop of [saveLoop],
    [for { r := <-s.save; if err := e.Encode(r); err != nil { log.Println("Error saving URL:", err) } }],
    run on the records [q] waiting in the channel until it is empty and
    the receive waits. [f] is the file behind the encoder, [None] for
    the nil file of a failed [os.OpenFile], on which every write fails;
    a write to a file that is open is taken to succeed.
    [Encode] writes the record as one JSON object; [text] is what a
    string reads back as once written that way (encoding/json replaces
    bytes that are not valid UTF-8). The result is the file and the
    lines logged. *)
Fixpoint saveLoop_drain (text : string → string) (f : option (list chunk))
    (q : list record) : option (list chunk) * list string :=
  match q with
  | [] => (f, [])
  | r :: q' =>
      match f with
      | Some content =>
          saveLoop_drain text
            (Some (content ++ [WellFormed {| Key := text (Key r); URL := text (URL r) |}])) q'
      | None =>
          let '(f', log) := saveLoop_drain text None q' in
          (f', "Error saving URL:"%string :: log)
      end
  end.

(** [func (s *URLStore) saveLoop(filename string)], up to the point
    where the channel is empty. [openfile] is [os.OpenFile] with
    [O_WRONLY|O_CREATE|O_APPEND]: the content the writes are appended
    to (empty for a file just created), or [None] when it fails. *)
Definition saveLoop (text : string → string)
    (openfile : string → option (list chunk)) (filename : string)
    (q : list record) : option (list chunk) * list string :=
  let f := openfile filename in
  let log := match f with
             | None => ["Error opening URLStore:"%string]
             | Some _ => []
             end in
  let '(f', log') := saveLoop_drain text f q in
  (f', log ++ log').

End URLStore.

(** ** Maps as references: what [All] hands out *)

Module GoHeap.

(** A Go map value is a reference. The heap holds the map objects; a
    variable or field of map type holds a location. *)
Abbreviation loc := positive (only parsing).
Abbreviation heap := (gmap positive (gmap string string)) (only parsing).

(** [make(map[string]string, n)]: a new, empty map object. *)
Definition make_map (h : heap) : loc * heap :=
  let l := fresh (dom h) in (l, <[l := ∅]> h).

(** [m[k] = v]. *)
Definition assign (m : loc) (k v : string) (h : heap) : heap :=
  alter (λ o, <[k := v]> o) m h.

(** [delete(m, k)]. *)
Definition remove (m : loc) (k : string) (h : heap) : heap :=
  alter (λ o, delete k o) m h.

(** What a holder of a map reference can do to the object. *)
Inductive mutation : Type :=
  | Assign (k v : string)
  | Remove (k : string).

Definition mutate (m : loc) (ms : list mutation) (h : heap) : heap :=
  foldl (λ h mu, match mu with
                 | Assign k v => assign m k v h
                 | Remove k => remove m k h
                 end) h ms.

(** The store with its [urls] field as the reference it is. *)
Record URLStore : Type := { urls : loc }.

(** The loop [for k, v := range s.urls { urls[k] = v }], visiting the
    entries in the order [entries]. *)
Definition All_range (urls : loc) (entries : list (string * string)) (h : heap)
  : heap :=
  foldl (λ h kv, assign urls kv.1 kv.2 h) h entries.

(** [func (s *URLStore) All() map[string]string]. Go leaves the order
    in which [range] visits a map open: [order] rearranges the entries
    into the order of this run. The result is the reference returned
    and the heap after the call. *)
Definition All (order : list (string * string) → list (string * string))
    (s : URLStore) (h : heap) : loc * heap :=
  let src := default ∅ (h !! urls s) in
  let '(urls, h) := make_map h in
  (urls, All_range urls (order (map_to_list src)) h).

End GoHeap.

(** ** store.go: the proxy store *)

(** A connected [*rpc.Client], by the address it was dialled at. *)
Record Client : Type := { remote_addr : string }.

(** One [client.Call(serviceMethod, args, reply)] as it went out. *)
Record call : Type := { via : Client; serviceMethod : string; args : string }.

Module ProxyStore.

(** [type ProxyStore struct { urls *URLStore; client *rpc.Client }];
    [client] is [None] for a nil pointer. *)
Record t : Type := mk { urls : URLStore.t; client : option Client }.

Section Environment.

(** The world outside the process: the file system seen through
    [os.Open], the state of the remote side, how dialling it
    answers, [(client, err)], and how it serves a call, giving the
    reply or the error together with its new state. *)
Variable open : string → option (list chunk).
Variable Remote : Type.
Variable DialHTTP : string → string → Remote → option Client * option error.
Variable serve : Client → string → string → Remote → (string + error) * Remote.

(** The remote side and the calls sent to it so far, oldest first. *)
Record World : Type := mkWorld { remote : Remote; calls : list call }.

(** [c.Call(serviceMethod, args, reply)] on a client pointer [c]: a
    nil pointer faults before anything is sent. *)
Definition Call (c : option Client) (serviceMethod args : string) (w : World)
  : outcome (string + error) * World :=
  match c with
  | None => (Panic NilPointerDereference, w)
  | Some c =>
      let '(r, remote') := serve c serviceMethod args (remote w) in
      (Ret r, mkWorld remote' (calls w ++ [Build_call c serviceMethod args]))
  end.

(** [func NewProxyStore(addr string) *ProxyStore], with what it logs. *)
Definition NewProxyStore (addr : string) (w : World) : t * list string :=
  let '(client, err) := DialHTTP "tcp" addr (remote w) in
  let log := match err with
             | Some _ => ["Error constructing ProxyStore: "%string]
             | None => []
             end in
  (mk (URLStore.NewURLStore open "").1 client, log).

(** [func (s *ProxyStore) Get(key, url *string) error]: the new
    content of [*url] and the error, the proxy and the world. *)
Definition Get (s : t) (key url : string) (w : World)
  : outcome (string * option error) * t * World :=
  match URLStore.Get (urls s) key url with
  | ((url, None), _) => (Ret (url, None), s, w)
  | ((url, Some _), _) =>
      match Call (client s) "Store.Get" key w with
      | (Ret (inr err), w) => (Ret (url, Some err), s, w)
      | (Ret (inl reply), w) =>
          let url := reply in
          let '(_, cache) := URLStore.Set_ (urls s) key url in
          (Ret (url, None), mk cache (client s), w)
      | (Panic p, w) => (Panic p, s, w)
      | (Blocked, w) => (Blocked, s, w)
      | (OutOfFuel, w) => (OutOfFuel, s, w)
      end
  end.

(** [func (s *ProxyStore) Put(url, key *string) error]: the new
    content of [*key] and the error, the proxy and the world. *)
Definition Put (s : t) (url key : string) (w : World)
  : outcome (string * option error) * t * World :=
  match Call (client s) "Store.Put" url w with
  | (Ret (inr err), w) => (Ret (key, Some err), s, w)
  | (Ret (inl reply), w) =>
      let key := reply in
      let '(_, cache) := URLStore.Set_ (urls s) key url in
      (Ret (key, None), mk cache (client s), w)
  | (Panic p, w) => (Panic p, s, w)
  | (Blocked, w) => (Blocked, s, w)
  | (OutOfFuel, w) => (OutOfFuel, s, w)
  end.

End Environment.

Arguments World Remote : clear implicits.
Arguments mkWorld {Remote} _ _.
Arguments remote {Remote} _.
Arguments calls {Remote} _.
Arguments Call {Remote} serve c serviceMethod args w.
Arguments NewProxyStore open {Remote} DialHTTP addr w.
Arguments Get {Remote} serve s key url w.
Arguments Put {Remote} serve s url key w.

End ProxyStore.

(** ** The store before persistence (the unnamed source file) *)

Module URLStoreV1.

(** [type URLStore struct { urls map[string]string; mu sync.RWMutex }]. *)
Record t : Type := mk { urls : gmap string string }.

(** [func NewURLStore() *URLStore]. *)
Definition NewURLStore : t := mk ∅.

(** [func (s *URLStore) Get(shortURL string) (string, bool)]: the
    comma-ok read of the map, the zero value [""] for a missing key. *)
Definition Get (s : t) (shortURL : string) : string * bool :=
  match urls s !! shortURL with
  | Some longURL => (longURL, true)
  | None => (""%string, false)
  end.

(** [func (s *URLStore) Set(shortURL, longURL string) bool]. *)
Definition Set_ (s : t) (shortURL longURL : string) : bool * t :=
  match urls s !! shortURL with
  | Some _ => (false, s)
  | None => (true, mk (<[shortURL := longURL]> (urls s)))
  end.

(** [func (s *URLStore) Delete(shortURL string)]. *)
Definition Delete (s : t) (shortURL : string) : t :=
  mk (delete shortURL (urls s)).

(** [func (s *URLStore) Count() int]. *)
Definition Count (s : t) : Z := Z.of_nat (size (urls s)).

(** The writes of other goroutines, one [Set_] each. *)
Definition Set_each (rs : list record) (s : t) : t :=
  foldl (λ s r, (Set_ s (Key r) (URL r)).2) s rs.

(** [func (s *URLStore) Put(url string) string]:
<<
    for {
        key := genKey(s.Count())
        if ok := s.Set(key, url); ok { return key }
        return ""
    }
>>
    The body leaves the function in its first round. [others] are the
    writes of other goroutines between [Count] and [Set_]. *)
Definition Put_racing (others : list record) (s : t) (url : string)
  : outcome string * t :=
  match genKey (Count s) with
  | Ret key =>
      let s := Set_each others s in
      match Set_ s key url with
      | (true, s) => (Ret key, s)
      | (false, s) => (Ret ""%string, s)
      end
  | Panic p => (Panic p, s)
  | Blocked => (Blocked, s)
  | OutOfFuel => (OutOfFuel, s)
  end.

Definition Put (s : t) (url : string) : outcome string * t :=
  Put_racing [] s url.

End URLStoreV1.

(** ** The store with its first persistence (the third part of main.go) *)

Module URLStoreV2.

(** [type URLStore struct { urls map[string]string; mu sync.RWMutex;
    save chan record }]; the channel is made by the constructor and is
    never nil: [save] is its buffer, oldest record first. *)
Record t : Type := mk { urls : gmap string string; save : list record }.

(** [func (s *URLStore) Get(shortURL string) string]: a plain map read,
    [""] for a missing key. *)
Definition Get (s : t) (shortURL : string) : string :=
  default ""%string (urls s !! shortURL).

(** [func (s *URLStore) Set(shortURL, longURL string) bool]. *)
Definition Set_ (s : t) (shortURL longURL : string) : bool * t :=
  match urls s !! shortURL with
  | Some _ => (false, s)
  | None => (true, mk (<[shortURL := longURL]> (urls s)) (save s))
  end.

(** [func (s *URLStore) Count() int]. *)
Definition Count (s : t) : Z := Z.of_nat (size (urls s)).

Definition Set_each (rs : list record) (s : t) : t :=
  foldl (λ s r, (Set_ s (Key r) (URL r)).2) s rs.

(** How a call of [Put] ends: as an [outcome] with the key returned
    (waiting at the full channel is [Blocked]), or in its own
    [panic("shouldn't get here")]. *)
Inductive put_result : Type :=
  | Finished (o : outcome string)
  | ShouldntGetHere.

(** [func (s *URLStore) Put(url string) string]:
<<
    for {
        key := genKey(s.Count())
        if ok := s.Set(key, url); ok {
            s.save <- record{key, url}
            return key
        }
        panic("shouldn't get here")
    }
>>
    [others] are the writes of other goroutines between [Count] and
    [Set_]. *)
Definition Put_racing (others : list record) (s : t) (url : string)
  : put_result * t :=
  match genKey (Count s) with
  | Ret key =>
      let s := Set_each others s in
      match Set_ s key url with
      | (true, s) =>
          match URLStore.send (save s) {| Key := key; URL := url |} with
          | Some q => (Finished (Ret key), mk (urls s) q)
          | None => (Finished Blocked, s)
          end
      | (false, s) => (ShouldntGetHere, s)
      end
  | Panic p => (Finished (Panic p), s)
  | Blocked => (Finished Blocked, s)
  | OutOfFuel => (Finished OutOfFuel, s)
  end.

Definition Put (s : t) (url : string) : put_result * t :=
  Put_racing [] s url.

End URLStoreV2.

(** ** main.go: the request handlers *)

(** [type Store interface { Put(url, key *string) error;
    Get(key, url *string) error }], over the state [S] of whatever is
    behind it. *)
Class Store (S : Type) : Type := {
  Store_Put : S → string → string → outcome (string * option error) * S;
  Store_Get : S → string → string → outcome (string * option error) * S
}.

(** The primary as a [Store]; [fuel] bounds the rounds of [Put]. *)
Definition URLStore_Store (fuel : nat) : Store URLStore.t := {|
  Store_Put s url key := URLStore.Put fuel s url key;
  Store_Get s key url :=
    let '(r, s) := URLStore.Get s key url in (Ret r, s)
|}.


(** What a handler does with its [http.ResponseWriter]. *)
Inductive response : Type :=
  | NotFound                               (* http.NotFound(w, r) *)
  | Error (err : error) (code : Z)         (* http.Error(w, err.Error(), code) *)
  | Redirected (url : string) (code : Z)   (* http.Redirect(w, r, url, code) *)
  | Written (body : string).               (* fmt.Fprint(w, body) *)

Definition StatusInternalServerError : Z := 500.
Definition StatusFound : Z := 302.

(** [r.URL.Path[1:]]. *)
Definition path_tail (path : string) : outcome string :=
  match path with
  | EmptyString => Panic (SliceBoundsOutOfRange 1 0)
  | String _ rest => Ret rest
  end.

Section Handlers.

Context {S : Type} `{Store S}.

(** [*hostname], and the page [AddForm]. *)
Variable hostname : string.
Variable AddForm : string.

(** [func Redirect(w http.ResponseWriter, r *http.Request)], on the
    request path: the response, what is logged, and the store. *)
Definition Redirect (store : S) (path : string)
  : outcome (response * list string) * S :=
  match path_tail path with
  | Ret key =>
      if decide (key = ""%string) then (Ret (NotFound, []), store)
      else
        let url := ""%string in
        match Store_Get store key url with
        | (Ret (url, Some err), store) =>
            (Ret (Error err StatusInternalServerError, []), store)
        | (Ret (url, None), store) =>
            (Ret (Redirected url StatusFound,
                  [("Redirect: " ++ key ++ " -> " ++ url)%string]), store)
        | (Panic p, store) => (Panic p, store)
        | (Blocked, store) => (Blocked, store)
        | (OutOfFuel, store) => (OutOfFuel, store)
        end
  | Panic p => (Panic p, store)
  | Blocked => (Blocked, store)
  | OutOfFuel => (OutOfFuel, store)
  end.

(** [func Add(w http.ResponseWriter, r *http.Request)], on the value of
    the form field [url]. *)
Definition Add (store : S) (url : string)
  : outcome (response * list string) * S :=
  if decide (url = ""%string) then (Ret (Written AddForm, []), store)
  else
    let key := ""%string in
    match Store_Put store url key with
    | (Ret (key, Some err), store) =>
        (Ret (Error err StatusInternalServerError, []), store)
    | (Ret (key, None), store) =>
        (Ret (Written ("http://" ++ hostname ++ "/" ++ key)%string,
              [("Add: " ++ key ++ " -> " ++ url)%string]), store)
    | (Panic p, store) => (Panic p, store)
    | (Blocked, store) => (Blocked, store)
    | (OutOfFuel, store) => (OutOfFuel, store)
    end.

End Handlers.

(** The handlers of the second part of main.go, which serve the store
    of its third part ([URLStoreV2]). *)
Module MainV2.

(** [func Redirect(w http.ResponseWriter, r *http.Request)]:
    [key := r.URL.Path[1:]; url := store.Get(key);
     if url == "" { http.NotFound(w, r); return };
     http.Redirect(w, r, url, http.StatusFound)]. *)
Definition Redirect (store : URLStoreV2.t) (path : string) : outcome response :=
  key ← path_tail path;
  let url := URLStoreV2.Get store key in
  if decide (url = ""%string) then Ret NotFound
  else Ret (Redirected url StatusFound).

End MainV2.

(** ** Vocabulary of the properties *)

(** The writes the store contract and the replay offer: a [Set_] and a
    [Put] (with its iteration budget and the other goroutines' writes
    during it). [Delete] is not among them. *)
Inductive write : Type :=
  | DoSet (shortURL longURL : string)
  | DoPut (fuel : nat) (others : list (list record)) (url key : string).

Definition apply_write (s : URLStore.t) (w : write) : URLStore.t :=
  match w with
  | DoSet k v => (URLStore.Set_ s k v).2
  | DoPut fuel others url key => (URLStore.Put_loop fuel others s url key).2
  end.

Definition apply_writes (ws : list write) (s : URLStore.t) : URLStore.t :=
  foldl apply_write s ws.

(** A record as an entry of the map. *)
Definition entry (r : record) : string * string := (Key r, URL r).

(** The store holds exactly the records [rs]: every binding of its map
    is one of them, and each of them is a binding of its map. *)
Definition retains (s : URLStore.t) (rs : list record) : Prop :=
  ∀ k u, URLStore.urls s !! k = Some u ↔ {| Key := k; URL := u |} ∈ rs.

(** "A log of the well-formed records [rs] followed by a malformed or
    truncated one yields a store with exactly those entries." *)
Definition truncated_tail_keeps_all (rs : list record) : Prop :=
  ∀ (open : string → option (list chunk)) (filename : string),
    filename ≠ ""%string →
    open filename = Some ((WellFormed <$> rs) ++ [Malformed]) →
    retains (URLStore.NewURLStore open filename).1 rs.

(** "A [Get] of a key that is not cached issues exactly one remote
    [Store.Get] call." *)
Definition miss_calls_remote_once {Remote : Type}
    (serve : Client → string → string → Remote → (string + error) * Remote)
    (s : ProxyStore.t) (key url : string) (w : ProxyStore.World Remote) : Prop :=
  URLStore.urls (ProxyStore.urls s) !! key = None →
  ∃ c, ProxyStore.calls (ProxyStore.Get serve s key url w).2
         = ProxyStore.calls w ++ [{| via := c; serviceMethod := "Store.Get"; args := key |}].

(** "A [Put] issues exactly one remote [Store.Put] call." *)
Definition Put_calls_remote_once {Remote : Type}
    (serve : Client → string → string → Remote → (string + error) * Remote)
    (s : ProxyStore.t) (url key : string) (w : ProxyStore.World Remote) : Prop :=
  ∃ c, ProxyStore.calls (ProxyStore.Put serve s url key w).2
         = ProxyStore.calls w ++ [{| via := c; serviceMethod := "Store.Put"; args := url |}].

(** "On remote success [Put] caches the returned (key, value) pair and
    returns the key." *)
Definition Put_caches_returned_pair {Remote : Type}
    (serve : Client → string → string → Remote → (string + error) * Remote)
    (s : ProxyStore.t) (url key : string) (w : ProxyStore.World Remote) : Prop :=
  ∀ k s' w',
    ProxyStore.Put serve s url key w = (Ret (k, None), s', w') →
    URLStore.urls (ProxyStore.urls s') !! k = Some url.

(** ** Stores, logs and disks of the scenarios *)

(** The store of a fresh primary that persists to a file: no entry,
    and an empty queue. *)
Definition fresh_primary : URLStore.t := URLStore.mk ∅ (Some []).

(** A log whose records repeat a key, as the collisions of concurrent
    [Put] calls write it. *)
Definition repeated_key_log : list record :=
  [{| Key := "0"; URL := "a.com" |}; {| Key := "0"; URL := "b.com" |}].

(** The log of the third scenario. *)
Definition two_record_log : list record :=
  [{| Key := "0"; URL := "a.com" |}; {| Key := "1"; URL := "b.com" |}].

(** A file system with one file: that log, cut off inside a third
    record. *)
Definition one_log_disk (filename : string) : option (list chunk) :=
  if decide (filename = "store.json"%string)
  then Some ((WellFormed <$> two_record_log) ++ [Malformed])
  else None.

(** ** A primary behind the wire

    [main] registers the store under the name "Store"
    ([rpc.RegisterName("Store", store)]), which makes its [Get] and
    [Put] the two remote methods. An error of the method reaches the
    caller as an RPC error carrying its text; a panic of the method
    ends the serving process and the caller's call fails. *)
Definition primary_serve (c : Client) (serviceMethod args : string)
    (p : URLStore.t) : (string + error) * URLStore.t :=
  if decide (serviceMethod = "Store.Get"%string) then
    match URLStore.Get p args "" with
    | ((url, None), p) => (inl url, p)
    | ((_, Some _), p) => (inr (ErrRemote "key not found"), p)
    end
  else if decide (serviceMethod = "Store.Put"%string) then
    match URLStore.Put 1 p args "" with
    | (Ret (key, None), p) => (inl key, p)
    | (_, p) => (inr (ErrRemote "unexpected EOF"), p)
    end
  else (inr (ErrRemote "rpc: can't find method"), p).

(** Dialling a primary that listens, and one that does not. *)
Definition dial_up (network addr : string) (p : URLStore.t)
  : option Client * option error :=
  (Some {| remote_addr := addr |}, None).

Definition dial_down (network addr : string) (p : URLStore.t)
  : option Client * option error :=
  (None, Some (ErrRemote "dial tcp: connection refused")).

(** No file at all. *)
Definition no_disk (filename : string) : option (list chunk) := None.

(** The primary of the third scenario, with nothing sent to it yet. *)
Definition loaded_primary : URLStore.t :=
  URLStore.mk {["0"%string := "a.com"%string; "1"%string := "b.com"%string]} (Some []).

Definition quiet (p : URLStore.t) : ProxyStore.World URLStore.t :=
  ProxyStore.mkWorld p [].

(** A replica of it, and what construction returns when the primary
    cannot be reached. *)
Definition replica : ProxyStore.t :=
  (ProxyStore.NewProxyStore no_disk dial_up "127.0.0.1:8081" (quiet loaded_primary)).1.

Definition orphan : ProxyStore.t :=
  (ProxyStore.NewProxyStore no_disk dial_down "127.0.0.1:8081" (quiet loaded_primary)).1.

(** A replica that cached ["0"] from a primary which has since started
    again with nothing in its log. *)
Definition stale_replica : ProxyStore.t :=
  ProxyStore.mk (URLStore.mk {["0"%string := "a.com"%string]} None)
    (Some {| remote_addr := "127.0.0.1:8081" |}).

(** ** Vocabulary of the further properties *)

(** One [Put] after another, each running alone, whatever it ends in. *)
Definition Put_each (fuel : nat) (urls : list string) (s : URLStore.t) : URLStore.t :=
  foldl (λ s url, (URLStore.Put fuel s url "").2) s urls.

(** The records of a log up to its first chunk that does not decode,
    and whether there is no such chunk. *)
Fixpoint well_formed_prefix (d : list chunk) : list record :=
  match d with
  | WellFormed r :: d' => r :: well_formed_prefix d'
  | _ => []
  end.

Fixpoint all_well_formed (d : list chunk) : bool :=
  match d with
  | [] => true
  | WellFormed _ :: d' => all_well_formed d'
  | Malformed :: _ => false
  end.

(** A record as it reads back once [Encode] has written it. *)
Definition written (text : string → string) (r : record) : record :=
  {| Key := text (Key r); URL := text (URL r) |}.


(** * Properties *)

(** ** The key generator *)

Example genKey_0 : genKey 0 = Ret "0"%string.
Proof. reflexivity. Qed.

Example genKey_1 : genKey 1 = Panic (IndexOutOfRange (-1) 0).
Proof. reflexivity. Qed.

Example genKey_62 : genKey 62 = Panic (IndexOutOfRange (-1) 0).
Proof. reflexivity. Qed.

Lemma keyChar_length : length keyChar = 62%nat.
Proof. reflexivity. Qed.

(** Every remainder of a positive number by 62 indexes [keyChar]. *)
Lemma keyChar_load_rem (n : Z) :
  0 < n → ∃ b, Slice.load keyChar (Z.rem n 62) = Ret b.
Proof.
  intros Hn. unfold Slice.load. rewrite keyChar_length.
  pose proof (Z.rem_bound_pos n 62 ltac:(lia) ltac:(lia)) as [Hlo Hhi].
  assert ((0 <=? Z.rem n 62) && (Z.rem n 62 <? Z.of_nat 62) = true) as ->.
  { apply andb_true_iff. split; [apply Z.leb_le | apply Z.ltb_lt]; lia. }
  eauto.
Qed.

(** The first round of the loop already indexes the empty slice at
    [-1]: [i] starts at [len(s) = 0] and is decremented before the
    store. *)
Lemma genKey_loop_empty_slice (fuel : nat) (n c : Z) :
  0 < n →
  genKey_loop (S fuel) 62 n 0 (Slice.mk [] c) = Panic (IndexOutOfRange (-1) 0).
Proof.
  intros Hn. cbn [genKey_loop].
  assert ((0 <? n) && (0 <=? 0) = true) as ->.
  { apply andb_true_iff. split; [apply Z.ltb_lt; lia | reflexivity]. }
  destruct (keyChar_load_rem n Hn) as [b ->].
  reflexivity.
Qed.

Lemma genKey_positive (n : Z) :
  0 < n → genKey n = Panic (IndexOutOfRange (-1) 0).
Proof.
  intros Hn. unfold genKey.
  destruct (Z.eqb_spec n 0) as [->|_]; [lia|].
  unfold Slice.make.
  assert ((0 <? 0) || (n <? 0) = false) as ->.
  { apply orb_false_iff. split; [reflexivity | apply Z.ltb_ge; lia]. }
  cbn [mbind outcome_mbind outcome_bind Slice.len Slice.elems length repeat Z.to_nat].
  change (Z.of_nat (length keyChar)) with 62.
  destruct (Z.to_nat n) as [|fuel] eqn:Hfuel; [lia|].
  change (Z.of_nat 0) with 0.
  rewrite genKey_loop_empty_slice by lia.
  reflexivity.
Qed.

Lemma genKey_negative (n : Z) :
  n < 0 → genKey n = Panic MakesliceCapOutOfRange.
Proof.
  intros Hn. unfold genKey.
  destruct (Z.eqb_spec n 0) as [->|_]; [lia|].
  unfold Slice.make.
  assert ((0 <? 0) || (n <? 0) = true) as ->.
  { apply orb_true_iff. right. apply Z.ltb_lt. lia. }
  reflexivity.
Qed.

(** C1. [genKey] returns a key for the ordinal 0 only, the first
    alphabet symbol ["0"]; for every positive [n] the first round of its
    loop stores at index [-1] of the zero-length slice made by
    [make([]byte, 0, n)] and the call panics, so no base-62 key of a
    positive ordinal is ever produced. *)
Theorem genKey_only_encodes_zero (n : Z) :
  genKey n =
    if n =? 0 then Ret "0"%string
    else if n <? 0 then Panic MakesliceCapOutOfRange
    else Panic (IndexOutOfRange (-1) 0).
Proof.
  destruct (Z.eqb_spec n 0) as [->|Hn0]; [reflexivity|].
  destruct (Z.ltb_spec n 0).
  - by apply genKey_negative.
  - apply genKey_positive. lia.
Qed.

(** ** The primary store *)

Section URLStoreFacts.

Import URLStore.
Implicit Types (s : URLStore.t) (k u url key : string).

Lemma Set_present s k u v :
  urls s !! k = Some u → Set_ s k v = (Some ErrAlreadyExists, s).
Proof. intros H. unfold Set_. by rewrite H. Qed.

Lemma Set_absent s k v :
  urls s !! k = None → Set_ s k v = (None, mk (<[k := v]> (urls s)) (save s)).
Proof. intros H. unfold Set_. by rewrite H. Qed.

(** [Set_] never touches the queue and never changes a binding. *)
Lemma Set_save s k v : save (Set_ s k v).2 = save s.
Proof. unfold Set_. by destruct (urls s !! k). Qed.

Lemma Set_keeps s k v k' u :
  urls s !! k' = Some u → urls (Set_ s k v).2 !! k' = Some u.
Proof.
  intros H. unfold Set_. destruct (urls s !! k) eqn:Hk; [done|].
  cbn. destruct (decide (k = k')) as [->|Hne]; [congruence|].
  by rewrite lookup_insert_ne.
Qed.

Lemma Set_each_keeps ws s k u :
  urls s !! k = Some u → urls (Set_each ws s) !! k = Some u.
Proof.
  revert s. induction ws as [|r ws IH]; intros s H; [done|].
  cbn. apply IH. by apply Set_keeps.
Qed.

Lemma Set_each_save ws s : save (Set_each ws s) = save s.
Proof.
  revert s. induction ws as [|r ws IH]; intros s; [done|].
  change (Set_each (r :: ws) s) with (Set_each ws (Set_ s (Key r) (URL r)).2).
  rewrite IH. apply Set_save.
Qed.

(** Whatever [Put] ends in, the bindings it found are still there. *)
Lemma Put_loop_keeps fuel others s url key k u :
  urls s !! k = Some u →
  urls (Put_loop fuel others s url key).2 !! k = Some u.
Proof.
  revert others s key.
  induction fuel as [|fuel IH]; intros others s key H; [done|].
  cbn [Put_loop]. destruct (genKey (Count s)) as [k0| | |]; try done.
  pose proof (Set_each_keeps (hd [] others) s k u H) as H1.
  set (s1 := Set_each (hd [] others) s) in *.
  pose proof (Set_keeps s1 k0 url k u H1) as H2.
  destruct (Set_ s1 k0 url) as [[e|] s2]; cbn in H2; [|done].
  destruct (save s2) as [q|]; [|by apply IH].
  destruct (send q _) as [q'|]; [|done].
  by apply IH.
Qed.

(** A returning [Put] has installed its value under the key it
    reports, and reports no error. *)
Lemma Put_loop_returns fuel others s url key k e s' :
  Put_loop fuel others s url key = (Ret (k, e), s') →
  e = None ∧ urls s' !! k = Some url.
Proof.
  revert others s key.
  induction fuel as [|fuel IH]; intros others s key H; [done|].
  cbn [Put_loop] in H. destruct (genKey (Count s)) as [k0| | |]; try done.
  set (s1 := Set_each (hd [] others) s) in *.
  unfold Set_ in H. destruct (urls s1 !! k0) eqn:Hk0.
  - destruct (save s1) as [q|]; [|by eapply IH].
    destruct (send q _) as [q'|]; [|done].
    by eapply IH.
  - injection H as <- <- <-. split; [done|]. cbn. by rewrite lookup_insert_eq.
Qed.

(** Running alone, [Put] ends in its first round: on the empty store
    it installs the value under ["0"], on any other store [genKey]
    panics. *)
Lemma Put_alone fuel s url key :
  Put (S fuel) s url key =
    if decide (urls s = ∅)
    then (Ret ("0"%string, None), mk {["0"%string := url]} (save s))
    else (Panic (IndexOutOfRange (-1) 0), s).
Proof.
  unfold Put. cbn [Put_loop hd Set_each foldl].
  case_decide as Hempty.
  - unfold Count, Set_. rewrite Hempty, map_size_empty.
    change (genKey (Z.of_nat 0)) with (@Ret string "0"%string).
    cbn beta iota. rewrite lookup_empty. cbn. by rewrite insert_empty.
  - rewrite genKey_positive; [done|].
    unfold Count. apply map_size_non_empty_iff in Hempty. lia.
Qed.

(** So a [Put] that runs alone and returns leaves the queue as it
    was. *)
Lemma Put_alone_keeps_queue fuel s url key k e s' :
  Put fuel s url key = (Ret (k, e), s') → save s' = save s.
Proof.
  destruct fuel as [|fuel]; [done|].
  rewrite Put_alone. case_decide; [|done].
  by intros [= <- <- <-].
Qed.

End URLStoreFacts.

(** C2. Whenever [Put] returns a key (with whatever other writers ran
    meanwhile), it returns no error and a following [Get] of that key
    yields the value put; and on an empty store [Put] of
    ["http://example.com"] returns ["0"], after which [Get] of ["0"]
    yields ["http://example.com"]. That the key had no prior entry
    follows from [Put] returning and need not be assumed. *)
Theorem Put_Get_round_trip :
  (∀ fuel others s url key k e s' out,
     URLStore.Put_loop fuel others s url key = (Ret (k, e), s') →
     e = None ∧ URLStore.Get s' k out = ((url, None), s'))
  ∧ (∀ fuel save key out,
       let s' := URLStore.mk {["0"%string := "http://example.com"%string]} save in
       URLStore.Put (S fuel) (URLStore.mk ∅ save) "http://example.com" key
         = (Ret ("0"%string, None), s')
       ∧ URLStore.Get s' "0" out = (("http://example.com"%string, None), s')).
Proof.
  split.
  - intros fuel others s url key k e s' out H.
    apply Put_loop_returns in H as [-> Hk].
    split; [done|]. unfold URLStore.Get. by rewrite Hk.
  - intros fuel save key out s'. split.
    + rewrite Put_alone. by rewrite decide_True.
    + unfold URLStore.Get, s'. cbn. by rewrite lookup_singleton_eq.
Qed.

Lemma Put_Get_round_trip_witness :
  URLStore.Put_loop 1 [] fresh_primary "http://example.com" ""
    = (Ret ("0"%string, None),
       URLStore.mk {["0"%string := "http://example.com"%string]} (Some []))
  ∧ URLStore.Get
      (URLStore.mk {["0"%string := "http://example.com"%string]} (Some []))
      "0" ""
    = (("http://example.com"%string, None),
       URLStore.mk {["0"%string := "http://example.com"%string]} (Some [])).
Proof.
  assert (URLStore.Put_loop 1 [] fresh_primary "http://example.com" ""
    = (Ret ("0"%string, None),
       URLStore.mk {["0"%string := "http://example.com"%string]} (Some [])))
    as H by reflexivity.
  split; [exact H|].
  exact (proj2 (proj1 Put_Get_round_trip _ _ _ _ _ _ _ _ "" H)).
Defined.

(** The second [Put] on a store: the count is 1 and [genKey] panics. *)
Example second_Put_panics :
  let s := URLStore.mk {["0"%string := "http://example.com"%string]} (Some []) in
  URLStore.Put 1 s "http://other.com" "" = (Panic (IndexOutOfRange (-1) 0), s).
Proof. reflexivity. Qed.

(** C3. The queue receives a record exactly where [Set_] fails. A [Put]
    that commits on a fresh primary (non-nil channel, empty queue)
    returns ["0"] and leaves the queue empty; and when another writer
    takes ["0"] between this call's [Count] and [Set_], the failed
    [Set_] puts the record [{"0", url}] on the queue before the next
    round panics in [genKey 1]. *)
Theorem Put_queues_on_collision_only :
  URLStore.Put 1 fresh_primary "http://example.com" ""
    = (Ret ("0"%string, None),
       URLStore.mk {["0"%string := "http://example.com"%string]} (Some []))
  ∧ URLStore.Put_loop 2 [[{| Key := "0"; URL := "http://rival.com" |}]]
      fresh_primary "http://example.com" ""
    = (Panic (IndexOutOfRange (-1) 0),
       URLStore.mk {["0"%string := "http://rival.com"%string]}
         (Some [{| Key := "0"; URL := "http://example.com" |}])).
Proof. split; reflexivity. Qed.

(** C4. [Set_] on a key that is present returns the already-exists
    error and leaves the store as it was; and after any sequence of
    [Set_] and [Put] calls, [Get] of that key still yields the value it
    had. *)
Theorem assigned_key_is_immutable (s : URLStore.t) (k v : string) :
  URLStore.urls s !! k = Some v →
  (∀ v', URLStore.Set_ s k v' = (Some ErrAlreadyExists, s))
  ∧ (∀ ws out,
       URLStore.Get (apply_writes ws s) k out = ((v, None), apply_writes ws s)).
Proof.
  intros H. split.
  - intros v'. by eapply Set_present.
  - intros ws out.
    assert (URLStore.urls (apply_writes ws s) !! k = Some v) as Hk.
    { revert s H. induction ws as [|w ws IH]; intros s H; [done|].
      cbn. apply IH. destruct w as [k' v'|fuel others url key]; cbn.
      - by apply Set_keeps.
      - by apply Put_loop_keeps. }
    unfold URLStore.Get. by rewrite Hk.
Qed.

Lemma assigned_key_is_immutable_witness :
  let s := URLStore.mk {["0"%string := "a.com"%string]} None in
  let ws := [DoSet "0" "b.com"; DoPut 3 [] "c.com" ""; DoSet "1" "d.com";
             DoPut 3 [[{| Key := "2"; URL := "e.com" |}]] "f.com" ""] in
  URLStore.urls s !! "0"%string = Some "a.com"%string
  ∧ URLStore.Set_ s "0" "b.com" = (Some ErrAlreadyExists, s)
  ∧ URLStore.Get (apply_writes ws s) "0" "" = (("a.com"%string, None), apply_writes ws s).
Proof.
  intros s ws.
  assert (URLStore.urls s !! "0"%string = Some "a.com"%string) as H by reflexivity.
  split; [exact H|].
  split.
  - exact (proj1 (assigned_key_is_immutable s "0" "a.com" H) "b.com").
  - exact (proj2 (assigned_key_is_immutable s "0" "a.com" H) ws "").
Defined.

(** C8. [Get] of an absent key returns the error "key not found",
    leaves [*url] as the caller had it and the store as it was; [Get]
    of a present key writes its value to [*url], returns no error and
    leaves the store as it was. *)
Theorem Get_found_or_not_found (s : URLStore.t) (key url : string) :
  (URLStore.urls s !! key = None →
     URLStore.Get s key url = ((url, Some ErrKeyNotFound), s))
  ∧ (∀ u, URLStore.urls s !! key = Some u →
       URLStore.Get s key url = ((u, None), s)).
Proof.
  unfold URLStore.Get. split.
  - by intros ->.
  - by intros u ->.
Qed.

Lemma Get_found_or_not_found_witness :
  let s := URLStore.mk {["0"%string := "a.com"%string]} None in
  (URLStore.urls s !! "2"%string = None
   ∧ URLStore.Get s "2" "" = ((""%string, Some ErrKeyNotFound), s))
  ∧ (URLStore.urls s !! "0"%string = Some "a.com"%string
     ∧ URLStore.Get s "0" "" = (("a.com"%string, None), s)).
Proof.
  intros s.
  assert (URLStore.urls s !! "2"%string = None) as H2 by reflexivity.
  assert (URLStore.urls s !! "0"%string = Some "a.com"%string) as H0 by reflexivity.
  split; split; [exact H2 | | exact H0 | ].
  - exact (proj1 (Get_found_or_not_found s "2" "") H2).
  - exact (proj2 (Get_found_or_not_found s "0" "") "a.com"%string H0).
Defined.

(** ** Replaying the log *)

Section Replay.

Import URLStore.
Implicit Types (s : URLStore.t) (rs : list record) (d : list chunk).

(** The loop of [load] in terms of [Decode]. *)
Lemma load_loop_Decode d s :
  load_loop d s =
    match Decode d with
    | (inl r, d') => load_loop d' (Set_ s (Key r) (URL r)).2
    | (inr err, _) => (err, s)
    end.
Proof. by destruct d as [|[r|] d']. Qed.

(** The replay stops at the first chunk that does not decode, with
    one [Set_] done for each record before it. *)
Lemma load_loop_malformed rs d s :
  load_loop ((WellFormed <$> rs) ++ Malformed :: d) s = (ErrDecode, Set_each rs s).
Proof. revert s. induction rs as [|r rs IH]; intros s; [done|]. cbn. apply IH. Qed.

Lemma load_loop_complete rs s :
  load_loop (WellFormed <$> rs) s = (EOF, Set_each rs s).
Proof. revert s. induction rs as [|r rs IH]; intros s; [done|]. cbn. apply IH. Qed.

Lemma Set_urls s k v : urls (Set_ s k v).2 = urls s ∪ {[k := v]}.
Proof.
  unfold Set_. destruct (urls s !! k) as [u|] eqn:Hk; cbn.
  - symmetry. apply map_eq. intros i.
    destruct (urls s !! i) as [x|] eqn:Hi.
    + by apply lookup_union_Some_l.
    + apply lookup_union_None. split; [done|].
      apply lookup_singleton_ne. congruence.
  - by apply insert_union_singleton_r.
Qed.

(** Among records with the same key the first one wins: the bindings
    already there stay, and each new key gets the URL of its first
    record. *)
Lemma Set_each_urls rs s :
  urls (Set_each rs s) = urls s ∪ list_to_map (entry <$> rs).
Proof.
  revert s. induction rs as [|r rs IH]; intros s.
  - cbn. by rewrite (right_id_L ∅ (∪)).
  - change (Set_each (r :: rs) s) with (Set_each rs (Set_ s (Key r) (URL r)).2).
    rewrite IH, Set_urls. cbn.
    by rewrite <- (assoc_L (∪)), <- insert_union_singleton_l.
Qed.

Lemma entry_keys rs : (entry <$> rs).*1 = Key <$> rs.
Proof. induction rs as [|r rs IH]; [done|]. cbn. by rewrite IH. Qed.

Lemma entry_elem_of rs k u :
  (k, u) ∈ entry <$> rs ↔ {| Key := k; URL := u |} ∈ rs.
Proof.
  rewrite list_elem_of_fmap. split.
  - intros ([k' u'] & [= -> ->] & Hin). done.
  - intros Hin. by exists {| Key := k; URL := u |}.
Qed.

(** Records with pairwise distinct keys, replayed into an empty map,
    are exactly its entries. *)
Lemma Set_each_distinct rs q :
  NoDup (Key <$> rs) →
  retains (Set_each rs (mk ∅ q)) rs
  ∧ size (urls (Set_each rs (mk ∅ q))) = length rs.
Proof.
  intros Hnd. unfold retains. rewrite Set_each_urls. cbn.
  rewrite (left_id_L ∅ (∪)). rewrite <- entry_keys in Hnd. split.
  - intros k u. rewrite <- entry_elem_of. symmetry. by apply elem_of_list_to_map.
  - rewrite map_size_list_to_map by done. by rewrite length_fmap.
Qed.

End Replay.

Lemma NewURLStore_truncated open filename rs :
  filename ≠ ""%string →
  open filename = Some ((WellFormed <$> rs) ++ [Malformed]) →
  URLStore.NewURLStore open filename
    = (URLStore.Set_each rs fresh_primary,
       ["Error decoding URLStore:"%string; "Error opening URLStore:"%string]).
Proof.
  intros Hne Hopen. unfold URLStore.NewURLStore, URLStore.load.
  rewrite decide_True by done. cbn [URLStore.urls].
  by rewrite Hopen, load_loop_malformed.
Qed.

Lemma NewURLStore_unopenable open filename :
  filename ≠ ""%string →
  open filename = None →
  URLStore.NewURLStore open filename
    = (fresh_primary,
       ["Error opening URLStore:"%string; "Error opening URLStore:"%string]).
Proof.
  intros Hne Hopen. unfold URLStore.NewURLStore, URLStore.load.
  rewrite decide_True by done. cbn [URLStore.urls].
  by rewrite Hopen.
Qed.

(** C5, as stated, fails on a log that repeats a key with another URL:
    the second record is not in the store. *)
Lemma truncated_tail_drops_repeated_key :
  ¬ truncated_tail_keeps_all repeated_key_log.
Proof.
  intros H.
  specialize (H (λ _, Some ((WellFormed <$> repeated_key_log) ++ [Malformed]))
                "store.json"%string ltac:(done) eq_refl "0"%string "b.com"%string).
  apply proj2 in H.
  assert (URLStore.urls
            (URLStore.NewURLStore
               (λ _, Some ((WellFormed <$> repeated_key_log) ++ [Malformed]))
               "store.json").1 !! "0"%string = Some "a.com"%string) as Ha
    by reflexivity.
  rewrite Ha in H.
  assert ({| Key := "0"; URL := "b.com" |} ∈ repeated_key_log) as Hin.
  { unfold repeated_key_log. set_solver. }
  specialize (H Hin). discriminate H.
Qed.

(** C5, amended. For a log of well-formed records [rs] followed by a
    malformed or truncated one, [NewURLStore] returns a store (the
    decoding error is only logged) whose map binds each key to the URL
    of the first record with that key; when the keys of [rs] are
    pairwise distinct the store holds exactly those [length rs]
    entries. A file that cannot be opened gives the empty store, the
    error again only logged. *)
Theorem NewURLStore_survives_bad_log
    (open : string → option (list chunk)) (filename : string) :
  filename ≠ ""%string →
  (∀ rs,
     open filename = Some ((WellFormed <$> rs) ++ [Malformed]) →
     let s := (URLStore.NewURLStore open filename).1 in
     URLStore.urls s = list_to_map (entry <$> rs)
     ∧ (NoDup (Key <$> rs) →
          retains s rs ∧ size (URLStore.urls s) = length rs))
  ∧ (open filename = None →
       (URLStore.NewURLStore open filename).1 = URLStore.mk ∅ (Some [])).
Proof.
  intros Hne. split.
  - intros rs Hopen. rewrite (NewURLStore_truncated _ _ rs) by done. cbn zeta.
    cbn [fst]. split.
    + rewrite Set_each_urls. cbn. by rewrite (left_id_L ∅ (∪)).
    + intros Hnd. by apply Set_each_distinct.
  - intros Hopen. by rewrite NewURLStore_unopenable.
Qed.

Lemma two_record_log_distinct : NoDup (Key <$> two_record_log).
Proof. exact (bool_decide_unpack (NoDup (Key <$> two_record_log)) I). Defined.

Lemma NewURLStore_survives_bad_log_witness :
  ("store.json"%string ≠ ""%string
   ∧ one_log_disk "store.json" = Some ((WellFormed <$> two_record_log) ++ [Malformed])
   ∧ NoDup (Key <$> two_record_log)
   ∧ retains (URLStore.NewURLStore one_log_disk "store.json").1 two_record_log
   ∧ size (URLStore.urls (URLStore.NewURLStore one_log_disk "store.json").1) = 2%nat)
  ∧ ("missing.json"%string ≠ ""%string
     ∧ one_log_disk "missing.json" = None
     ∧ (URLStore.NewURLStore one_log_disk "missing.json").1 = URLStore.mk ∅ (Some [])).
Proof.
  assert ("store.json"%string ≠ ""%string) as Hs by discriminate.
  assert ("missing.json"%string ≠ ""%string) as Hm by discriminate.
  split.
  - split; [exact Hs|]. split; [reflexivity|]. split; [exact two_record_log_distinct|].
    exact (proj2 (proj1 (NewURLStore_survives_bad_log one_log_disk "store.json" Hs)
                    two_record_log eq_refl) two_record_log_distinct).
  - split; [exact Hm|]. split; [reflexivity|].
    exact (proj2 (NewURLStore_survives_bad_log one_log_disk "missing.json" Hm) eq_refl).
Defined.

(** The third end-to-end scenario: a store loaded from a log of
    [{"0","a.com"}] and [{"1","b.com"}]. *)
Example load_two_records :
  let s := (URLStore.NewURLStore
              (λ _, Some (WellFormed <$> two_record_log)) "store.json").1 in
  URLStore.Get s "1" "" = (("b.com"%string, None), s)
  ∧ URLStore.Get s "2" "" = ((""%string, Some ErrKeyNotFound), s).
Proof. split; reflexivity. Qed.

(** ** [All] and the map it returns *)

Section HeapFacts.

Import GoHeap.
Implicit Types (h : gmap positive (gmap string string)) (m : gmap string string).

Lemma make_map_fresh h : h !! (make_map h).1 = None.
Proof. cbn. apply not_elem_of_dom. apply is_fresh. Qed.

Lemma assign_lookup u k v h l :
  assign u k v h !! l =
    if decide (u = l) then (λ o, <[k := v]> o) <$> h !! u else h !! l.
Proof.
  unfold assign. rewrite lookup_alter. case_decide; [by subst|done].
Qed.

Lemma mutate_other u ms h l : l ≠ u → mutate u ms h !! l = h !! l.
Proof.
  intros Hne. revert h. induction ms as [|mu ms IH]; intros h; [done|].
  cbn. etrans; [apply IH|]. destruct mu; unfold assign, remove;
    by rewrite lookup_alter_ne.
Qed.

Lemma All_range_other u entries h l : l ≠ u → All_range u entries h !! l = h !! l.
Proof.
  intros Hne. revert h. induction entries as [|kv es IH]; intros h; [done|].
  cbn. etrans; [apply IH|]. unfold assign. by rewrite lookup_alter_ne.
Qed.

(** The copy loop, on the object it fills. *)
Lemma All_range_target u entries h m0 :
  h !! u = Some m0 →
  All_range u entries h !! u = Some (foldl (λ m kv, <[kv.1 := kv.2]> m) m0 entries).
Proof.
  revert h m0. induction entries as [|kv es IH]; intros h m0 H; [done|].
  cbn. apply IH. rewrite assign_lookup, decide_True by done. by rewrite H.
Qed.

(** Inserting entries with pairwise distinct keys one by one gives the
    same map in whatever order they come. *)
Lemma foldl_insert_lookup (l : list (string * string)) m0 k :
  NoDup l.*1 →
  foldl (λ m kv, <[kv.1 := kv.2]> m) m0 l !! k =
    match (list_to_map l : gmap string string) !! k with
    | Some v => Some v
    | None => m0 !! k
    end.
Proof.
  revert m0. induction l as [|[k0 v0] l IH]; intros m0 Hnd; [done|].
  apply NoDup_cons in Hnd as [Hk0 Hnd]. cbn [foldl fst snd].
  rewrite IH by done. rewrite list_to_map_cons.
  destruct (decide (k0 = k)) as [->|Hne].
  - rewrite lookup_insert_eq.
    rewrite (not_elem_of_list_to_map_1 l k) by done.
    by rewrite lookup_insert_eq.
  - rewrite !(lookup_insert_ne _ k0 k) by done. done.
Qed.

Lemma foldl_insert_permutation (l : list (string * string)) m :
  l ≡ₚ map_to_list m →
  foldl (λ m kv, <[kv.1 := kv.2]> m) ∅ l = m.
Proof.
  intros Hp.
  assert (NoDup l.*1) as Hnd.
  { rewrite Hp. apply NoDup_fst_map_to_list. }
  apply map_eq. intros k. rewrite foldl_insert_lookup by done.
  rewrite (list_to_map_proper l (map_to_list m)) by done.
  rewrite list_to_map_to_list, lookup_empty.
  by destruct (m !! k).
Qed.

End HeapFacts.

(** C9. [All] returns a reference to a map object that did not exist
    before the call, whose content equals the store's map, in whatever
    order [range] visits the entries; the store's own map and every
    other object are as they were, and no sequence of assignments and
    deletions through the returned reference changes the store's map. *)
Theorem All_returns_a_copy
    (order : list (string * string) → list (string * string))
    (s : GoHeap.URLStore) (h : gmap positive (gmap string string))
    (m : gmap string string) :
  (∀ l, order l ≡ₚ l) →
  h !! GoHeap.urls s = Some m →
  let '(u, h') := GoHeap.All order s h in
  h !! u = None
  ∧ u ≠ GoHeap.urls s
  ∧ h' !! u = Some m
  ∧ (∀ l, l ≠ u → h' !! l = h !! l)
  ∧ (∀ ms, GoHeap.mutate u ms h' !! GoHeap.urls s = Some m).
Proof.
  intros Horder Hs. unfold GoHeap.All. rewrite Hs. cbn [default].
  pose proof (make_map_fresh h) as Hfresh.
  destruct (GoHeap.make_map h) as [u h1] eqn:Hmk.
  assert (h1 = <[u := ∅]> h) as -> by (by injection Hmk as <- <-).
  cbn [fst] in Hfresh.
  assert (u ≠ GoHeap.urls s) as Hne by congruence.
  split; [done|]. split; [done|]. split; [|split].
  - erewrite All_range_target by apply lookup_insert_eq.
    f_equal. by apply foldl_insert_permutation.
  - intros l Hl. rewrite All_range_other by done. by rewrite lookup_insert_ne.
  - intros ms. rewrite mutate_other by done.
    rewrite All_range_other by done. by rewrite lookup_insert_ne.
Qed.

Lemma All_returns_a_copy_witness :
  let m : gmap string string :=
    {["0"%string := "a.com"%string; "1"%string := "b.com"%string]} in
  let h : gmap positive (gmap string string) := {[1%positive := m]} in
  let s := {| GoHeap.urls := 1%positive |} in
  (∀ l : list (string * string), reverse l ≡ₚ l)
  ∧ h !! GoHeap.urls s = Some m
  ∧ let '(u, h') := GoHeap.All reverse s h in
    h !! u = None
    ∧ u ≠ GoHeap.urls s
    ∧ h' !! u = Some m
    ∧ (∀ l, l ≠ u → h' !! l = h !! l)
    ∧ (∀ ms, GoHeap.mutate u ms h' !! GoHeap.urls s = Some m).
Proof.
  intros m h s.
  split; [exact reverse_Permutation|].
  split; [reflexivity|].
  exact (All_returns_a_copy reverse s h m reverse_Permutation eq_refl).
Defined.

(** The copy at work: a writer to the returned map does not reach the
    store. *)
Example All_then_mutate :
  let m : gmap string string := {["0"%string := "a.com"%string]} in
  let h : gmap positive (gmap string string) := {[1%positive := m]} in
  let '(u, h') := GoHeap.All reverse {| GoHeap.urls := 1%positive |} h in
  let h'' := GoHeap.mutate u [GoHeap.Assign "0" "evil.com"; GoHeap.Remove "0"] h' in
  h'' !! 1%positive = Some m ∧ h'' !! u = Some ∅.
Proof. split; reflexivity. Qed.

(** ** The proxy store *)

Section ProxyFacts.

Import ProxyStore.
Context {Remote : Type}.
Variable serve : Client → string → string → Remote → (string + error) * Remote.
Implicit Types (s : ProxyStore.t) (w : World Remote) (c : Client).

Lemma Call_nil serviceMethod args w :
  Call serve None serviceMethod args w = (Panic NilPointerDereference, w).
Proof. reflexivity. Qed.

Lemma Call_connected c serviceMethod args w :
  Call serve (Some c) serviceMethod args w =
    (Ret (serve c serviceMethod args (remote w)).1,
     mkWorld (serve c serviceMethod args (remote w)).2
       (calls w ++ [{| via := c; serviceMethod := serviceMethod; args := args |}])).
Proof. unfold Call. by destruct (serve _ _ _ _). Qed.

(** A hit is answered from the cache, whatever the client is. *)
Lemma Get_hit s key url w u :
  URLStore.urls (urls s) !! key = Some u →
  Get serve s key url w = (Ret (u, None), s, w).
Proof. intros H. unfold Get, URLStore.Get. by rewrite H. Qed.

(** With a nil client a miss faults, and so does every [Put]. *)
Lemma Get_miss_nil cache key url w :
  URLStore.urls cache !! key = None →
  Get serve (mk cache None) key url w
    = (Panic NilPointerDereference, mk cache None, w).
Proof. intros H. unfold Get, URLStore.Get. cbn [urls client]. by rewrite H. Qed.

Lemma Put_nil cache url key w :
  Put serve (mk cache None) url key w
    = (Panic NilPointerDereference, mk cache None, w).
Proof. reflexivity. Qed.

End ProxyFacts.

(** C6, as stated, fails for the proxy that [NewProxyStore] returns
    after a failed dial: its miss sends nothing. *)
Lemma orphan_miss_sends_nothing :
  ¬ miss_calls_remote_once primary_serve orphan "1" "" (quiet loaded_primary).
Proof.
  intros H. destruct (H eq_refl) as [c Hc].
  vm_compute in Hc. discriminate Hc.
Qed.

(** C6, amended. A [Get] of a cached key returns the cached value and
    sends nothing. On a proxy whose client is not nil, a [Get] of a key
    that is not cached sends exactly one [Store.Get] call; when the
    remote side answers with a value the proxy returns it and caches it
    under the key, so that every later [Get] of the key is answered
    with that value and sends nothing; when the remote side answers
    with an error the proxy returns that error and keeps its cache. *)
Theorem ProxyStore_Get_caches {Remote : Type}
    (serve : Client → string → string → Remote → (string + error) * Remote)
    (s : ProxyStore.t) (key url : string) (w : ProxyStore.World Remote) :
  (∀ u, URLStore.urls (ProxyStore.urls s) !! key = Some u →
        ProxyStore.Get serve s key url w = (Ret (u, None), s, w))
  ∧ (∀ c, ProxyStore.client s = Some c →
          URLStore.urls (ProxyStore.urls s) !! key = None →
          let r := serve c "Store.Get"%string key (ProxyStore.remote w) in
          let w' := ProxyStore.mkWorld r.2
                      (ProxyStore.calls w ++
                         [{| via := c; serviceMethod := "Store.Get"; args := key |}]) in
          match r.1 with
          | inl reply =>
              let s' := ProxyStore.mk
                          (URLStore.mk (<[key := reply]> (URLStore.urls (ProxyStore.urls s)))
                             (URLStore.save (ProxyStore.urls s)))
                          (Some c) in
              ProxyStore.Get serve s key url w = (Ret (reply, None), s', w')
              ∧ (∀ url2 w2, ProxyStore.Get serve s' key url2 w2 = (Ret (reply, None), s', w2))
          | inr err =>
              ProxyStore.Get serve s key url w = (Ret (url, Some err), s, w')
          end).
Proof.
  split.
  - intros u H. by apply Get_hit.
  - intros c Hc Hmiss r w'.
    assert (ProxyStore.Get serve s key url w =
              match r.1 with
              | inl reply =>
                  (Ret (reply, None),
                   ProxyStore.mk (URLStore.Set_ (ProxyStore.urls s) key reply).2 (Some c), w')
              | inr err => (Ret (url, Some err), s, w')
              end) as HGet.
    { unfold ProxyStore.Get, URLStore.Get. rewrite Hmiss, Hc, Call_connected.
      fold r. fold w'. destruct (r.1) as [reply|err]; [|done].
      by destruct (URLStore.Set_ _ _ _). }
    destruct (r.1) as [reply|err]; [|done].
    rewrite Set_absent in HGet by done. split; [done|].
    intros url2 w2. apply Get_hit. cbn. by rewrite lookup_insert_eq.
Qed.

Lemma ProxyStore_Get_caches_witness :
  let w1 := ProxyStore.mkWorld loaded_primary
              [{| via := {| remote_addr := "127.0.0.1:8081" |};
                  serviceMethod := "Store.Get"; args := "1" |}] in
  let cached := ProxyStore.mk (URLStore.mk {["1"%string := "b.com"%string]} None)
                  (Some {| remote_addr := "127.0.0.1:8081" |}) in
  ProxyStore.client replica = Some {| remote_addr := "127.0.0.1:8081" |}
  ∧ URLStore.urls (ProxyStore.urls replica) !! "1"%string = None
  ∧ ProxyStore.Get primary_serve replica "1" "" (quiet loaded_primary)
      = (Ret ("b.com"%string, None), cached, w1)
  ∧ URLStore.urls (ProxyStore.urls cached) !! "1"%string = Some "b.com"%string
  ∧ ProxyStore.Get primary_serve cached "1" "" w1 = (Ret ("b.com"%string, None), cached, w1).
Proof.
  intros w1 cached.
  split; [reflexivity|]. split; [reflexivity|].
  split; [|split; [reflexivity|]].
  - exact (proj1 (proj2 (ProxyStore_Get_caches primary_serve replica "1" ""
                           (quiet loaded_primary))
                    {| remote_addr := "127.0.0.1:8081" |} eq_refl eq_refl)).
  - exact (proj1 (ProxyStore_Get_caches primary_serve cached "1" "" w1)
             "b.com"%string eq_refl).
Defined.

(** C7, as stated, fails twice: the proxy returned after a failed dial
    sends nothing on [Put], and a proxy that already caches the key the
    remote side hands out keeps its old entry instead of the returned
    pair. *)
Lemma Put_neither_always_sends_nor_always_caches :
  ¬ Put_calls_remote_once primary_serve orphan "c.com" "" (quiet loaded_primary)
  ∧ ¬ Put_caches_returned_pair primary_serve stale_replica "b.com" "" (quiet fresh_primary).
Proof.
  split.
  - intros [c Hc]. vm_compute in Hc. discriminate Hc.
  - intros H.
    specialize (H "0"%string stale_replica
                  (ProxyStore.mkWorld
                     (URLStore.mk {["0"%string := "b.com"%string]} (Some []))
                     [{| via := {| remote_addr := "127.0.0.1:8081" |};
                         serviceMethod := "Store.Put"; args := "b.com" |}])
                  eq_refl).
    vm_compute in H. discriminate H.
Qed.

(** C7, amended. On a proxy whose client is not nil, [Put] sends
    exactly one [Store.Put] call, whatever the cache holds. When the
    remote side answers with a key the proxy returns it, having run
    [Set_] on its cache: a key that was not cached is now bound to the
    value, a key that was cached keeps its entry and the proxy is as it
    was. When the remote side answers with an error the proxy returns
    that error and is as it was. *)
Theorem ProxyStore_Put_forwards {Remote : Type}
    (serve : Client → string → string → Remote → (string + error) * Remote)
    (s : ProxyStore.t) (c : Client) (url key : string)
    (w : ProxyStore.World Remote) :
  ProxyStore.client s = Some c →
  let r := serve c "Store.Put"%string url (ProxyStore.remote w) in
  let w' := ProxyStore.mkWorld r.2
              (ProxyStore.calls w ++
                 [{| via := c; serviceMethod := "Store.Put"; args := url |}]) in
  match r.1 with
  | inl k =>
      ∃ s', ProxyStore.Put serve s url key w = (Ret (k, None), s', w')
            ∧ (URLStore.urls (ProxyStore.urls s) !! k = None →
                 URLStore.urls (ProxyStore.urls s')
                   = <[k := url]> (URLStore.urls (ProxyStore.urls s)))
            ∧ (is_Some (URLStore.urls (ProxyStore.urls s) !! k) → s' = s)
  | inr err => ProxyStore.Put serve s url key w = (Ret (key, Some err), s, w')
  end.
Proof.
  intros Hc r w'. destruct s as [cache cl]. cbn in Hc. subst cl.
  unfold ProxyStore.Put. cbn [ProxyStore.client ProxyStore.urls].
  rewrite Call_connected. fold r. fold w'.
  destruct (r.1) as [k|err]; [|done].
  destruct (URLStore.urls cache !! k) as [u|] eqn:Hk.
  - exists (ProxyStore.mk cache (Some c)).
    rewrite (Set_present _ _ u) by done.
    split; [done|]. split; [done|]. done.
  - exists (ProxyStore.mk
              (URLStore.mk (<[k := url]> (URLStore.urls cache)) (URLStore.save cache))
              (Some c)).
    rewrite Set_absent by done.
    split; [done|]. split; [done|]. by intros [? [=]].
Qed.

Lemma ProxyStore_Put_forwards_witness :
  let c := {| remote_addr := "127.0.0.1:8081" |} in
  let fresh_replica := ProxyStore.mk (URLStore.mk ∅ None) (Some c) in
  ProxyStore.client fresh_replica = Some c
  ∧ ∃ s', ProxyStore.Put primary_serve fresh_replica "http://example.com" ""
            (quiet fresh_primary)
          = (Ret ("0"%string, None), s',
             ProxyStore.mkWorld
               (URLStore.mk {["0"%string := "http://example.com"%string]} (Some []))
               [{| via := c; serviceMethod := "Store.Put"; args := "http://example.com" |}])
        ∧ (URLStore.urls (ProxyStore.urls fresh_replica) !! "0"%string = None →
             URLStore.urls (ProxyStore.urls s')
               = <["0"%string := "http://example.com"%string]>
                   (URLStore.urls (ProxyStore.urls fresh_replica)))
        ∧ (is_Some (URLStore.urls (ProxyStore.urls fresh_replica) !! "0"%string) →
             s' = fresh_replica).
Proof.
  intros c fresh_replica.
  split; [reflexivity|].
  exact (ProxyStore_Put_forwards primary_serve fresh_replica c "http://example.com" ""
           (quiet fresh_primary) eq_refl).
Defined.

(** The fifth scenario does not get through: the primary of the third
    scenario holds two entries, its [Put] panics in [genKey 2], and the
    replica's [Put] returns the RPC failure with nothing cached. *)
Example replica_Put_on_loaded_primary :
  ProxyStore.Put primary_serve replica "c.com" "" (quiet loaded_primary)
    = (Ret (""%string, Some (ErrRemote "unexpected EOF")), replica,
       ProxyStore.mkWorld loaded_primary
         [{| via := {| remote_addr := "127.0.0.1:8081" |};
             serviceMethod := "Store.Put"; args := "c.com" |}]).
Proof. reflexivity. Qed.

(** C10. [NewProxyStore] returns a proxy whatever the dial answers: an
    empty cache with the client the dial gave, the error being only
    logged. After a failed dial (a nil client with the error) the proxy
    has a nil client and an empty cache, so each of its [Get] calls is
    a miss, and every [Get] and every [Put] on it ends in a nil-pointer
    panic instead of an error value, with the proxy and the world as
    they were. *)
Theorem NewProxyStore_after_failed_dial {Remote : Type}
    (open : string → option (list chunk))
    (DialHTTP : string → string → Remote → option Client * option error)
    (serve : Client → string → string → Remote → (string + error) * Remote)
    (addr : string) (w : ProxyStore.World Remote) :
  (ProxyStore.NewProxyStore open DialHTTP addr w).1
    = ProxyStore.mk (URLStore.mk ∅ None)
        (DialHTTP "tcp"%string addr (ProxyStore.remote w)).1
  ∧ (∀ err,
       DialHTTP "tcp"%string addr (ProxyStore.remote w) = (None, Some err) →
       let s := (ProxyStore.NewProxyStore open DialHTTP addr w).1 in
       ProxyStore.NewProxyStore open DialHTTP addr w
         = (ProxyStore.mk (URLStore.mk ∅ None) None,
            ["Error constructing ProxyStore: "%string])
       ∧ (∀ key url w',
            ProxyStore.Get serve s key url w' = (Panic NilPointerDereference, s, w'))
       ∧ (∀ url key w',
            ProxyStore.Put serve s url key w' = (Panic NilPointerDereference, s, w'))).
Proof.
  split.
  - unfold ProxyStore.NewProxyStore. by destruct (DialHTTP _ _ _).
  - intros err Hdial s.
    assert (ProxyStore.NewProxyStore open DialHTTP addr w
            = (ProxyStore.mk (URLStore.mk ∅ None) None,
               ["Error constructing ProxyStore: "%string])) as Hnew.
    { unfold ProxyStore.NewProxyStore. by rewrite Hdial. }
    subst s. rewrite Hnew. cbn [fst]. split; [done|]. split.
    + intros key url w'. apply Get_miss_nil. apply lookup_empty.
    + intros url key w'. apply Put_nil.
Qed.

Lemma NewProxyStore_after_failed_dial_witness :
  dial_down "tcp" "127.0.0.1:8081" (ProxyStore.remote (quiet loaded_primary))
    = (None, Some (ErrRemote "dial tcp: connection refused"))
  ∧ ProxyStore.NewProxyStore no_disk dial_down "127.0.0.1:8081" (quiet loaded_primary)
      = (ProxyStore.mk (URLStore.mk ∅ None) None, ["Error constructing ProxyStore: "%string])
  ∧ (∀ key url w', ProxyStore.Get primary_serve orphan key url w'
                     = (Panic NilPointerDereference, orphan, w'))
  ∧ (∀ url key w', ProxyStore.Put primary_serve orphan url key w'
                     = (Panic NilPointerDereference, orphan, w')).
Proof.
  split; [reflexivity|].
  exact (proj2 (NewProxyStore_after_failed_dial no_disk dial_down primary_serve
                  "127.0.0.1:8081" (quiet loaded_primary))
           (ErrRemote "dial tcp: connection refused") eq_refl).
Defined.

(** * Further properties *)

(** ** [Delete], [Count] and [Set_] *)

(** X1. After [Delete] the key is gone: [Get] of it reports "key not
    found"; every other key reads as before and the queue is
    untouched. *)
Theorem Delete_forgets_key (s : URLStore.t) (k out : string) :
  URLStore.Get (URLStore.Delete s k) k out
    = ((out, Some ErrKeyNotFound), URLStore.Delete s k)
  ∧ (∀ k' out', k' ≠ k →
       (URLStore.Get (URLStore.Delete s k) k' out').1 = (URLStore.Get s k' out').1)
  ∧ URLStore.save (URLStore.Delete s k) = URLStore.save s.
Proof.
  split; [|split; [|done]].
  - unfold URLStore.Get, URLStore.Delete. cbn. by rewrite lookup_delete_eq.
  - intros k' out' Hne. unfold URLStore.Get, URLStore.Delete. cbn.
    rewrite lookup_delete_ne by done. by destruct (URLStore.urls s !! k').
Qed.

(** X2. [Delete] reopens a key: whatever the key was bound to, after
    [Delete] a [Set_] of it with any value succeeds and [Get] yields
    that value. A key keeps its value only as long as nobody deletes
    it. *)
Theorem Delete_reopens_key (s : URLStore.t) (k v' out : string) :
  let s1 := URLStore.Delete s k in
  let s2 := URLStore.mk (<[k := v']> (URLStore.urls s1)) (URLStore.save s) in
  URLStore.Set_ s1 k v' = (None, s2)
  ∧ URLStore.Get s2 k out = ((v', None), s2).
Proof.
  intros s1 s2. split.
  - unfold URLStore.Set_, s1, URLStore.Delete. cbn. by rewrite lookup_delete_eq.
  - unfold URLStore.Get, s2. cbn. by rewrite lookup_insert_eq.
Qed.

(** X3. [Count] follows the writes: a [Set_] that succeeds adds one, a
    [Set_] that is refused adds nothing, a [Delete] of a present key
    takes one away and a [Delete] of an absent key nothing. *)
Theorem Count_follows_writes (s : URLStore.t) (k v : string) :
  URLStore.Count (URLStore.Set_ s k v).2
    = match URLStore.urls s !! k with
      | Some _ => URLStore.Count s
      | None => URLStore.Count s + 1
      end
  ∧ URLStore.Count (URLStore.Delete s k)
    = match URLStore.urls s !! k with
      | Some _ => URLStore.Count s - 1
      | None => URLStore.Count s
      end.
Proof.
  unfold URLStore.Count, URLStore.Set_, URLStore.Delete.
  destruct (URLStore.urls s !! k) as [u|] eqn:Hk; cbn.
  - split; [done|]. rewrite map_size_delete_Some by eauto.
    pose proof (map_size_ne_0_lookup_2 (URLStore.urls s) k ltac:(eauto)). lia.
  - split.
    + rewrite map_size_insert_None by done. lia.
    + by rewrite delete_id.
Qed.

(** ** [Put] round by round *)

Section PutFacts.

Import URLStore.
Implicit Types (s : URLStore.t) (k u url key : string).

Lemma genKey_cases (n : Z) :
  (n = 0 ∧ genKey n = Ret "0"%string) ∨ (n ≠ 0 ∧ ∃ p, genKey n = Panic p).
Proof.
  destruct (Z.lt_trichotomy n 0) as [Hn|[->|Hn]].
  - right. split; [lia|]. rewrite genKey_negative by done. eauto.
  - by left.
  - right. split; [lia|]. rewrite genKey_positive by done. eauto.
Qed.

Lemma Count_zero s : Count s = 0 ↔ urls s = ∅.
Proof.
  unfold Count. rewrite <- map_size_empty_iff. lia.
Qed.

(** On a store that holds an entry every round of [Put] panics. *)
Lemma Put_loop_nonempty fuel others s url key :
  urls s ≠ ∅ →
  Put_loop (S fuel) others s url key = (Panic (IndexOutOfRange (-1) 0), s).
Proof.
  intros Hne. cbn [Put_loop]. rewrite genKey_positive; [done|].
  unfold Count. apply map_size_non_empty_iff in Hne. lia.
Qed.

Lemma Put_loop_nonempty_no_return fuel others s url key r s' :
  urls s ≠ ∅ → Put_loop fuel others s url key ≠ (Ret r, s').
Proof.
  intros Hne. destruct fuel as [|fuel]; [done|].
  by rewrite Put_loop_nonempty.
Qed.

Lemma Put_loop_no_channel fuel others s url key :
  save s = None →
  save (Put_loop fuel others s url key).2 = None
  ∧ (Put_loop fuel others s url key).1 ≠ Blocked.
Proof.
  revert others s key. induction fuel as [|fuel IH]; intros others s key Hs; [done|].
  cbn [Put_loop].
  destruct (genKey_cases (Count s)) as [[_ ->]|[_ [p ->]]]; [|done].
  pose proof (Set_each_save (hd [] others) s) as Hs1. rewrite Hs in Hs1.
  set (s1 := Set_each (hd [] others) s) in *.
  unfold Set_. destruct (urls s1 !! "0"%string).
  - rewrite Hs1. by apply IH.
  - done.
Qed.

End PutFacts.

(** X4. [Put] after [Put], each running alone: a store that already
    holds an entry stays as it is (every [Put] panics), and the empty
    store ends up with the first URL under ["0"] and nothing else, the
    queue untouched. *)
Theorem Put_each_keeps_one_entry (fuel : nat) (urls : list string) (s : URLStore.t) :
  Put_each (S fuel) urls s =
    if decide (URLStore.urls s = ∅) then
      match urls with
      | [] => s
      | url :: _ => URLStore.mk {["0"%string := url]} (URLStore.save s)
      end
    else s.
Proof.
  assert (∀ l s0, URLStore.urls s0 ≠ ∅ → Put_each (S fuel) l s0 = s0) as Hfull.
  { induction l as [|url l IH]; intros s0 Hne; [done|].
    change (Put_each (S fuel) (url :: l) s0)
      with (Put_each (S fuel) l (URLStore.Put (S fuel) s0 url "").2).
    rewrite Put_alone, decide_False by done. by apply IH. }
  case_decide as Hs; [|by apply Hfull].
  destruct urls as [|url rest]; [done|].
  change (Put_each (S fuel) (url :: rest) s)
    with (Put_each (S fuel) rest (URLStore.Put (S fuel) s url "").2).
  rewrite Put_alone, decide_True by done. cbn [snd].
  apply Hfull. cbn. apply insert_non_empty.
Qed.

(** X5. Under any interleaving, a [Put] that returns did so in its
    first round: the store it started on was empty, the key is ["0"],
    the value is bound to it, and nothing was put on the queue. A
    [Put] that met a collision never returns. *)
Theorem Put_returns_in_first_round
    (fuel : nat) (others : list (list record)) (s : URLStore.t)
    (url key k : string) (e : option error) (s' : URLStore.t) :
  URLStore.Put_loop fuel others s url key = (Ret (k, e), s') →
  URLStore.urls s = ∅
  ∧ k = "0"%string
  ∧ URLStore.urls (URLStore.Set_each (hd [] others) s) !! "0"%string = None
  ∧ s' = URLStore.mk
           (<["0"%string := url]> (URLStore.urls (URLStore.Set_each (hd [] others) s)))
           (URLStore.save s).
Proof.
  destruct fuel as [|fuel]; [done|]. cbn [URLStore.Put_loop].
  destruct (genKey_cases (URLStore.Count s)) as [[H0 ->]|[_ [p ->]]]; [|done].
  apply Count_zero in H0.
  pose proof (Set_each_save (hd [] others) s) as Hsave.
  set (s1 := URLStore.Set_each (hd [] others) s) in *.
  unfold URLStore.Set_. destruct (URLStore.urls s1 !! "0"%string) as [u|] eqn:H1.
  - assert (URLStore.urls s1 ≠ ∅) as Hne.
    { intros Hempty. by rewrite Hempty, lookup_empty in H1. }
    destruct (URLStore.save s1) as [q|].
    + destruct (URLStore.send q _) as [q'|]; [|done].
      intros H. by apply Put_loop_nonempty_no_return in H.
    + intros H. by apply Put_loop_nonempty_no_return in H.
  - intros [= <- <- <-]. by rewrite Hsave.
Qed.

Lemma Put_returns_in_first_round_witness :
  let rival := [[{| Key := "7"; URL := "rival.com" |}]] in
  let s' := URLStore.mk {["0"%string := "a.com"%string; "7"%string := "rival.com"%string]}
              (Some []) in
  URLStore.Put_loop 3 rival fresh_primary "a.com" "" = (Ret ("0"%string, None), s')
  ∧ URLStore.urls fresh_primary = ∅
  ∧ "0"%string = "0"%string
  ∧ URLStore.urls (URLStore.Set_each (hd [] rival) fresh_primary) !! "0"%string = None
  ∧ s' = URLStore.mk
           (<["0"%string := "a.com"%string]>
              (URLStore.urls (URLStore.Set_each (hd [] rival) fresh_primary)))
           (URLStore.save fresh_primary).
Proof.
  intros rival s'.
  assert (URLStore.Put_loop 3 rival fresh_primary "a.com" "" = (Ret ("0"%string, None), s'))
    as H by reflexivity.
  split; [exact H|].
  exact (Put_returns_in_first_round 3 rival fresh_primary "a.com" "" "0" None s' H).
Defined.

(** X6. A collision, for any store and any rival writes: when the
    store is empty at [Count] and a rival has taken ["0"] before
    [Set_], the failed [Set_] sends the record of the value that was
    not stored to the channel if there is one, and the next round
    panics in [genKey]; with a full channel the call waits at the send
    instead. The map is left as the rivals made it. *)
Theorem Put_collision_outcome
    (fuel : nat) (others : list (list record)) (s : URLStore.t) (url key : string) :
  URLStore.urls s = ∅ →
  is_Some (URLStore.urls (URLStore.Set_each (hd [] others) s) !! "0"%string) →
  let s1 := URLStore.Set_each (hd [] others) s in
  URLStore.Put_loop (S (S fuel)) others s url key =
    match URLStore.save s with
    | None => (Panic (IndexOutOfRange (-1) 0), s1)
    | Some q =>
        if decide (length q < saveQueueLength)%nat
        then (Panic (IndexOutOfRange (-1) 0),
              URLStore.mk (URLStore.urls s1)
                (Some (q ++ [{| Key := "0"; URL := url |}])))
        else (Blocked, s1)
    end.
Proof.
  intros Hempty [u Hu] s1. cbn [URLStore.Put_loop].
  assert (URLStore.Count s = 0) as -> by by apply Count_zero.
  change (genKey 0) with (@Ret string "0"%string). cbn beta iota.
  fold s1. rewrite (Set_present s1 _ u) by done.
  assert (URLStore.urls s1 ≠ ∅) as Hne.
  { intros H. unfold s1 in H. by rewrite H, lookup_empty in Hu. }
  assert (URLStore.save s1 = URLStore.save s) as Hsave by apply Set_each_save.
  assert (0 < URLStore.Count s1) as Hcount.
  { unfold URLStore.Count. apply map_size_non_empty_iff in Hne. lia. }
  rewrite Hsave. destruct (URLStore.save s) as [q|].
  - unfold URLStore.send. case_decide; [|done].
    cbn [URLStore.urls URLStore.Count] in *. unfold URLStore.Count. cbn [URLStore.urls].
    by rewrite genKey_positive.
  - rewrite genKey_positive by done. by destruct s1.
Qed.

Lemma Put_collision_outcome_witness :
  let rival := [[{| Key := "0"; URL := "rival.com" |}]] in
  URLStore.urls fresh_primary = ∅
  ∧ is_Some (URLStore.urls (URLStore.Set_each (hd [] rival) fresh_primary) !! "0"%string)
  ∧ URLStore.Put_loop 2 rival fresh_primary "a.com" ""
    = (Panic (IndexOutOfRange (-1) 0),
       URLStore.mk {["0"%string := "rival.com"%string]}
         (Some [{| Key := "0"; URL := "a.com" |}])).
Proof.
  intros rival.
  assert (is_Some (URLStore.urls (URLStore.Set_each (hd [] rival) fresh_primary)
                     !! "0"%string)) as H by (eexists; reflexivity).
  split; [reflexivity|]. split; [exact H|].
  exact (Put_collision_outcome 0 rival fresh_primary "a.com" "" eq_refl H).
Defined.

(** X7. A store made with the empty file name has no channel, and no
    sequence of [Set_] and [Put] calls gives it one; [Put] on it never
    waits at a send, whatever else it ends in. *)
Theorem no_file_store_never_waits
    (open : string → option (list chunk)) (ws : list write)
    (fuel : nat) (others : list (list record)) (url key : string) :
  let s := apply_writes ws (URLStore.NewURLStore open "").1 in
  URLStore.save s = None
  ∧ (URLStore.Put_loop fuel others s url key).1 ≠ Blocked.
Proof.
  intros s.
  assert (URLStore.save s = None) as Hs.
  { subst s. generalize (URLStore.NewURLStore open "").1, (eq_refl : URLStore.save (URLStore.NewURLStore open "").1 = None).
    induction ws as [|w ws IH]; intros s0 H0; [done|].
    cbn. apply IH. destruct w as [k v|f o u k]; cbn.
    - by rewrite Set_save.
    - by apply Put_loop_no_channel. }
  split; [done|]. by apply Put_loop_no_channel.
Qed.

(** ** The log: [load] and [saveLoop] *)

Section LogFacts.

Import URLStore.
Implicit Types (s : URLStore.t) (rs q : list record) (d : list chunk).

Lemma load_loop_prefix d s :
  load_loop d s =
    (if all_well_formed d then EOF else ErrDecode,
     Set_each (well_formed_prefix d) s).
Proof.
  revert s. induction d as [|[r|] d IH]; intros s; [done| |done].
  cbn [load_loop all_well_formed well_formed_prefix]. by rewrite IH.
Qed.

Lemma Set_each_app rs1 rs2 s :
  Set_each (rs1 ++ rs2) s = Set_each rs2 (Set_each rs1 s).
Proof. unfold Set_each. by rewrite foldl_app. Qed.

(** Replaying the same records again changes nothing. *)
Lemma Set_each_twice rs s : Set_each rs (Set_each rs s) = Set_each rs s.
Proof.
  assert (urls (Set_each rs (Set_each rs s)) = urls (Set_each rs s)) as Hu.
  { rewrite (Set_each_urls rs (Set_each rs s)), (Set_each_urls rs s).
    by rewrite <- (assoc_L (∪)), (idemp_L (∪)). }
  pose proof (Set_each_save rs (Set_each rs s)) as Hq.
  destruct (Set_each rs (Set_each rs s)), (Set_each rs s). cbn in *. congruence.
Qed.

Lemma saveLoop_drain_open text content q :
  saveLoop_drain text (Some content) q
    = (Some (content ++ (WellFormed <$> (written text <$> q))), []).
Proof.
  revert content. induction q as [|r q IH]; intros content.
  - cbn. by rewrite (right_id_L [] (++)).
  - cbn [saveLoop_drain]. rewrite IH. cbn. by rewrite <- (assoc_L (++)).
Qed.

Lemma saveLoop_drain_nil text q :
  saveLoop_drain text None q
    = (None, replicate (length q) "Error saving URL:"%string).
Proof.
  induction q as [|r q IH]; [done|]. cbn [saveLoop_drain]. by rewrite IH.
Qed.

Lemma saveLoop_appends_helper text content filename q :
  saveLoop text (λ _, Some content) filename q
    = (Some (content ++ (WellFormed <$> (written text <$> q))), []).
Proof. unfold saveLoop. by rewrite saveLoop_drain_open. Qed.

End LogFacts.

(** X8. [load] reads a file up to its first chunk that does not decode
    and no further: the store has had one [Set_] for each record before
    that chunk, whatever follows it; the call returns no error and logs
    nothing exactly when every chunk decodes, and otherwise returns the
    decoding error with one log line. *)
Theorem load_reads_well_formed_prefix
    (open : string → option (list chunk)) (s : URLStore.t)
    (filename : string) (d : list chunk) :
  open filename = Some d →
  URLStore.load open s filename =
    (if all_well_formed d then (None, [])
     else (Some ErrDecode, ["Error decoding URLStore:"%string]),
     URLStore.Set_each (well_formed_prefix d) s).
Proof.
  intros Hopen. unfold URLStore.load. rewrite Hopen, load_loop_prefix.
  by destruct (all_well_formed d).
Qed.

Lemma load_reads_well_formed_prefix_witness :
  let d := [WellFormed {| Key := "0"; URL := "a.com" |}; Malformed;
            WellFormed {| Key := "1"; URL := "b.com" |}] in
  (λ _ : string, Some d) "store.json"%string = Some d
  ∧ URLStore.load (λ _, Some d) fresh_primary "store.json"
    = ((Some ErrDecode, ["Error decoding URLStore:"%string]),
       URLStore.mk {["0"%string := "a.com"%string]} (Some [])).
Proof.
  intros d. split; [reflexivity|].
  exact (load_reads_well_formed_prefix (λ _, Some d) fresh_primary "store.json" d eq_refl).
Defined.

(** X9. Loading a file into a store that has already loaded it changes
    nothing: bindings that exist are never overwritten by the log, so a
    second [load] of the same file returns the store it was given. *)
Theorem load_twice_is_load_once
    (open : string → option (list chunk)) (s : URLStore.t) (filename : string) :
  (URLStore.load open (URLStore.load open s filename).2 filename).2
    = (URLStore.load open s filename).2.
Proof.
  unfold URLStore.load. destruct (open filename) as [d|]; [|done].
  rewrite !load_loop_prefix.
  destruct (all_well_formed d); cbn [snd]; apply Set_each_twice.
Qed.

(** X10. [saveLoop] only appends, in the order of the queue: with the
    file open, what was in the file stays in front, the queued records
    follow oldest first, and nothing is logged; when the file cannot be
    opened the loop still takes every record off the channel, writes
    none, and logs the failure to open once and one failed save per
    record. *)
Theorem saveLoop_appends_in_order
    (text : string → string) (openfile : string → option (list chunk))
    (filename : string) (q : list record) :
  URLStore.saveLoop text openfile filename q =
    match openfile filename with
    | Some content =>
        (Some (content ++ (WellFormed <$> (written text <$> q))), [])
    | None =>
        (None, "Error opening URLStore:"%string
                 :: replicate (length q) "Error saving URL:"%string)
    end.
Proof.
  unfold URLStore.saveLoop. destruct (openfile filename) as [content|].
  - by rewrite saveLoop_drain_open.
  - by rewrite saveLoop_drain_nil.
Qed.

(** X11. What [saveLoop] wrote, [NewURLStore] reads back: for a log of
    well-formed records [rs0] to which [saveLoop] appends the queue
    [q], a store constructed from the resulting file logs no error and
    binds each key to the URL of its first record among [rs0] followed
    by [q] (each string as encoding/json writes it). *)
Theorem saved_log_loads_back
    (text : string → string) (rs0 q : list record) (filename : string) :
  filename ≠ ""%string →
  let file := (URLStore.saveLoop text (λ _, Some (WellFormed <$> rs0)) filename q).1 in
  let '(s, log) := URLStore.NewURLStore (λ _, file) filename in
  log = []
  ∧ URLStore.save s = Some []
  ∧ URLStore.urls s = list_to_map (entry <$> (rs0 ++ (written text <$> q))).
Proof.
  intros Hne. rewrite saveLoop_appends_helper. cbn [fst].
  unfold URLStore.NewURLStore, URLStore.load. rewrite decide_True by done.
  rewrite <- fmap_app, load_loop_complete. cbn [URLStore.urls].
  split; [done|]. split; [by rewrite Set_each_save|].
  rewrite Set_each_urls. cbn. by rewrite (left_id_L ∅ (∪)).
Qed.

Lemma saved_log_loads_back_witness :
  let q := [{| Key := "1"; URL := "b.com" |}; {| Key := "0"; URL := "late.com" |}] in
  let rs0 := [{| Key := "0"; URL := "a.com" |}] in
  let file := (URLStore.saveLoop (λ x, x) (λ _, Some (WellFormed <$> rs0)) "store.json" q).1 in
  "store.json"%string ≠ ""%string
  ∧ let '(s, log) := URLStore.NewURLStore (λ _, file) "store.json" in
    log = []
    ∧ URLStore.save s = Some []
    ∧ URLStore.urls s = list_to_map (entry <$> (rs0 ++ (written (λ x, x) <$> q))).
Proof.
  intros q rs0 file.
  assert ("store.json"%string ≠ ""%string) as Hne by discriminate.
  split; [exact Hne|].
  exact (saved_log_loads_back (λ x, x) rs0 q "store.json" Hne).
Defined.

(** ** [All] as a snapshot *)

(** X12. The map [All] returned is a snapshot: whatever the store
    assigns to or deletes from its own map afterwards, the returned map
    still holds the entries of the moment of the call. *)
Theorem All_is_a_snapshot
    (order : list (string * string) → list (string * string))
    (s : GoHeap.URLStore) (h : gmap positive (gmap string string))
    (m : gmap string string) (ms : list GoHeap.mutation) :
  (∀ l, order l ≡ₚ l) →
  h !! GoHeap.urls s = Some m →
  let '(u, h') := GoHeap.All order s h in
  GoHeap.mutate (GoHeap.urls s) ms h' !! u = Some m.
Proof.
  intros Horder Hs. unfold GoHeap.All. rewrite Hs. cbn [default].
  pose proof (make_map_fresh h) as Hfresh.
  destruct (GoHeap.make_map h) as [u h1] eqn:Hmk.
  assert (h1 = <[u := ∅]> h) as -> by (by injection Hmk as <- <-).
  cbn [fst] in Hfresh.
  assert (u ≠ GoHeap.urls s) as Hne by congruence.
  rewrite mutate_other by done.
  erewrite All_range_target by apply lookup_insert_eq.
  f_equal. by apply foldl_insert_permutation.
Qed.

Lemma All_is_a_snapshot_witness :
  let m : gmap string string := {["0"%string := "a.com"%string]} in
  let h : gmap positive (gmap string string) := {[1%positive := m]} in
  let s := {| GoHeap.urls := 1%positive |} in
  let ms := [GoHeap.Remove "0"; GoHeap.Assign "0" "other.com"] in
  (∀ l : list (string * string), reverse l ≡ₚ l)
  ∧ h !! GoHeap.urls s = Some m
  ∧ let '(u, h') := GoHeap.All reverse s h in
    GoHeap.mutate (GoHeap.urls s) ms h' !! u = Some m.
Proof.
  intros m h s ms.
  split; [exact reverse_Permutation|]. split; [reflexivity|].
  exact (All_is_a_snapshot reverse s h m ms reverse_Permutation eq_refl).
Defined.

(** ** The proxy *)

(** X13. What a call on a proxy never does, whoever serves it and
    whether or not the client is nil: it never replaces the client,
    never changes or drops a cached entry, and never sends more than
    one call, a [Get] only [Store.Get] with its key and a [Put] only
    [Store.Put] with its value. *)
Theorem ProxyStore_call_footprint {Remote : Type}
    (serve : Client → string → string → Remote → (string + error) * Remote)
    (s : ProxyStore.t) (key url : string) (w : ProxyStore.World Remote) :
  (let '(_, s', w') := ProxyStore.Get serve s key url w in
   ProxyStore.client s' = ProxyStore.client s
   ∧ (∀ k u, URLStore.urls (ProxyStore.urls s) !! k = Some u →
             URLStore.urls (ProxyStore.urls s') !! k = Some u)
   ∧ (ProxyStore.calls w' = ProxyStore.calls w
      ∨ ∃ c, ProxyStore.client s = Some c
             ∧ ProxyStore.calls w' = ProxyStore.calls w ++
                 [{| via := c; serviceMethod := "Store.Get"; args := key |}]))
  ∧ (let '(_, s', w') := ProxyStore.Put serve s url key w in
     ProxyStore.client s' = ProxyStore.client s
     ∧ (∀ k u, URLStore.urls (ProxyStore.urls s) !! k = Some u →
               URLStore.urls (ProxyStore.urls s') !! k = Some u)
     ∧ (ProxyStore.calls w' = ProxyStore.calls w
        ∨ ∃ c, ProxyStore.client s = Some c
               ∧ ProxyStore.calls w' = ProxyStore.calls w ++
                   [{| via := c; serviceMethod := "Store.Put"; args := url |}])).
Proof.
  destruct s as [cache [c|]]; split.
  - unfold ProxyStore.Get, URLStore.Get. cbn [ProxyStore.urls ProxyStore.client].
    destruct (URLStore.urls cache !! key) as [u|]; [by auto|].
    rewrite Call_connected. destruct (serve c _ key _) as [[reply|err] remote']; cbn.
    + pose proof (λ k u, Set_keeps cache key reply k u) as Hkeep.
      destruct (URLStore.Set_ cache key reply) as [e cache']. cbn in *.
      split; [done|]. split; [done|]. right. by exists c.
    + split; [done|]. split; [done|]. right. by exists c.
  - unfold ProxyStore.Put. cbn [ProxyStore.urls ProxyStore.client].
    rewrite Call_connected. destruct (serve c _ url _) as [[reply|err] remote']; cbn.
    + pose proof (λ k u, Set_keeps cache reply url k u) as Hkeep.
      destruct (URLStore.Set_ cache reply url) as [e cache']. cbn in *.
      split; [done|]. split; [done|]. right. by exists c.
    + split; [done|]. split; [done|]. right. by exists c.
  - unfold ProxyStore.Get, URLStore.Get. cbn [ProxyStore.urls ProxyStore.client].
    destruct (URLStore.urls cache !! key) as [u|]; cbn; by auto.
  - cbn. by auto.
Qed.

Section CoherenceFacts.

Implicit Types (s : ProxyStore.t) (w : ProxyStore.World URLStore.t) (p : URLStore.t).



End CoherenceFacts.



(** ** The request handlers *)

(** X15. [Redirect] in front of a primary: a request for ["/"] is
    answered "not found"; a request for a key that is bound is
    redirected to its URL with status 302; a request for a key that is
    not bound is answered with the error "key not found" and status
    500, not with "not found"; an empty path panics at the slice. The
    store is never changed. *)
Theorem Redirect_on_primary (fuel : nat) (s : URLStore.t) (path : string) :
  Redirect (H := URLStore_Store fuel) s path =
    match path with
    | EmptyString => (Panic (SliceBoundsOutOfRange 1 0), s)
    | String _ key =>
        if decide (key = ""%string) then (Ret (NotFound, []), s)
        else
          match URLStore.urls s !! key with
          | Some u =>
              (Ret (Redirected u 302, [("Redirect: " ++ key ++ " -> " ++ u)%string]), s)
          | None => (Ret (Error ErrKeyNotFound 500, []), s)
          end
    end.
Proof.
  destruct path as [|c key]; [done|].
  unfold Redirect. cbn [path_tail]. case_decide; [done|].
  cbn [Store_Get URLStore_Store]. unfold URLStore.Get.
  by destruct (URLStore.urls s !! key).
Qed.

(** X16. [Add] in front of a primary, for a form value that is not
    empty: on the empty store it answers with the short URL
    [http://hostname/0], and a [Redirect] of ["/0"] then leads to the
    value; on a store that holds an entry the handler panics and the
    store stays as it was. *)
Theorem Add_then_Redirect_on_primary
    (fuel : nat) (hostname AddForm : string) (s : URLStore.t) (url : string) :
  url ≠ ""%string →
  let s1 := URLStore.mk {["0"%string := url]} (URLStore.save s) in
  Add (H := URLStore_Store (S fuel)) hostname AddForm s url =
    (if decide (URLStore.urls s = ∅)
     then (Ret (Written ("http://" ++ hostname ++ "/0")%string,
                [("Add: 0 -> " ++ url)%string]), s1)
     else (Panic (IndexOutOfRange (-1) 0), s))
  ∧ Redirect (H := URLStore_Store (S fuel)) s1 "/0" =
      (Ret (Redirected url 302, [("Redirect: 0 -> " ++ url)%string]), s1).
Proof.
  intros Hurl s1. split.
  - unfold Add. rewrite decide_False by done.
    cbn [Store_Put URLStore_Store]. rewrite Put_alone. by case_decide.
  - unfold Redirect. cbn [path_tail]. rewrite decide_False by done.
    cbn [Store_Get URLStore_Store]. unfold URLStore.Get. subst s1. cbn [URLStore.urls].
    by rewrite lookup_singleton_eq.
Qed.

Lemma Add_then_Redirect_on_primary_witness :
  let s1 := URLStore.mk {["0"%string := "http://example.com"%string]} (Some []) in
  "http://example.com"%string ≠ ""%string
  ∧ Add (H := URLStore_Store 1) "localhost:8081" "form" fresh_primary "http://example.com"
    = (Ret (Written "http://localhost:8081/0",
            ["Add: 0 -> http://example.com"%string]), s1)
  ∧ Redirect (H := URLStore_Store 1) s1 "/0"
    = (Ret (Redirected "http://example.com" 302,
            ["Redirect: 0 -> http://example.com"%string]), s1).
Proof.
  intros s1.
  assert ("http://example.com"%string ≠ ""%string) as Hne by discriminate.
  split; [exact Hne|].
  exact (Add_then_Redirect_on_primary 0 "localhost:8081" "form" fresh_primary
           "http://example.com" Hne).
Defined.



(** ** The earlier versions of the store *)

Section EarlierFacts.

Lemma V1_Count_zero (s : URLStoreV1.t) :
  URLStoreV1.Count s = 0 ↔ URLStoreV1.urls s = ∅.
Proof. unfold URLStoreV1.Count. rewrite <- map_size_empty_iff. lia. Qed.

Lemma V1_Count_positive (s : URLStoreV1.t) :
  URLStoreV1.urls s ≠ ∅ → 0 < URLStoreV1.Count s.
Proof.
  intros Hne. unfold URLStoreV1.Count. apply map_size_non_empty_iff in Hne. lia.
Qed.

Lemma V2_Count_positive (s : URLStoreV2.t) :
  URLStoreV2.urls s ≠ ∅ → 0 < URLStoreV2.Count s.
Proof.
  intros Hne. unfold URLStoreV2.Count. apply map_size_non_empty_iff in Hne. lia.
Qed.

End EarlierFacts.

(** X18. In the store without persistence, a [Put] that no other
    goroutine disturbs never reaches its [return ""]: on the empty
    store it returns ["0"] with the value bound to it, so that [Get]
    of ["0"] yields the value and [true]; on a store that holds an
    entry it panics in [genKey] and leaves the store as it was. *)
Theorem V1_Put_alone (s : URLStoreV1.t) (url : string) :
  URLStoreV1.Put s url =
    (if decide (URLStoreV1.urls s = ∅)
     then (Ret "0"%string, URLStoreV1.mk {["0"%string := url]})
     else (Panic (IndexOutOfRange (-1) 0), s))
  ∧ URLStoreV1.Get (URLStoreV1.mk {["0"%string := url]}) "0" = (url, true).
Proof.
  split.
  - unfold URLStoreV1.Put, URLStoreV1.Put_racing. case_decide as Hs.
    + assert (URLStoreV1.Count s = 0) as -> by by apply V1_Count_zero.
      change (genKey 0) with (@Ret string "0"%string). cbn beta iota.
      unfold URLStoreV1.Set_each, URLStoreV1.Set_. cbn [foldl].
      rewrite Hs, lookup_empty. by rewrite insert_empty.
    + by rewrite genKey_positive by by apply V1_Count_positive.
  - unfold URLStoreV1.Get. cbn. by rewrite lookup_singleton_eq.
Qed.

(** X19. With a rival the same [Put] does reach its [return ""]: when
    the store is empty at [Count] and another goroutine has taken
    ["0"] before [Set_], the call returns the empty key and the value
    is stored nowhere. *)
Theorem V1_Put_racing_returns_empty_key
    (others : list record) (s : URLStoreV1.t) (url : string) :
  URLStoreV1.urls s = ∅ →
  is_Some (URLStoreV1.urls (URLStoreV1.Set_each others s) !! "0"%string) →
  URLStoreV1.Put_racing others s url
    = (Ret ""%string, URLStoreV1.Set_each others s).
Proof.
  intros Hs [u Hu]. unfold URLStoreV1.Put_racing.
  assert (URLStoreV1.Count s = 0) as -> by by apply V1_Count_zero.
  change (genKey 0) with (@Ret string "0"%string). cbn beta iota.
  unfold URLStoreV1.Set_. by rewrite Hu.
Qed.

Lemma V1_Put_racing_returns_empty_key_witness :
  let rival := [{| Key := "0"; URL := "rival.com" |}] in
  URLStoreV1.urls URLStoreV1.NewURLStore = ∅
  ∧ is_Some (URLStoreV1.urls (URLStoreV1.Set_each rival URLStoreV1.NewURLStore)
               !! "0"%string)
  ∧ URLStoreV1.Put_racing rival URLStoreV1.NewURLStore "a.com"
    = (Ret ""%string, URLStoreV1.mk {["0"%string := "rival.com"%string]}).
Proof.
  intros rival.
  assert (is_Some (URLStoreV1.urls (URLStoreV1.Set_each rival URLStoreV1.NewURLStore)
                     !! "0"%string)) as H by (eexists; reflexivity).
  split; [reflexivity|]. split; [exact H|].
  exact (V1_Put_racing_returns_empty_key rival URLStoreV1.NewURLStore "a.com" eq_refl H).
Defined.

(** X20. In the store with its first persistence, a [Put] that commits
    queues its record: running alone on the empty store it binds the
    value to ["0"] and then sends exactly the record [{"0", url}] to
    the back of the queue before it returns ["0"], or waits at the
    send, the value already bound, when the queue is full; on a store
    that holds an entry it panics in [genKey] with nothing bound and
    nothing queued. *)
Theorem V2_Put_queues_what_it_commits (s : URLStoreV2.t) (url : string) :
  URLStoreV2.Put s url =
    if decide (URLStoreV2.urls s = ∅) then
      if decide (length (URLStoreV2.save s) < saveQueueLength)%nat
      then (URLStoreV2.Finished (Ret "0"%string),
            URLStoreV2.mk {["0"%string := url]}
              (URLStoreV2.save s ++ [{| Key := "0"; URL := url |}]))
      else (URLStoreV2.Finished Blocked,
            URLStoreV2.mk {["0"%string := url]} (URLStoreV2.save s))
    else (URLStoreV2.Finished (Panic (IndexOutOfRange (-1) 0)), s).
Proof.
  unfold URLStoreV2.Put, URLStoreV2.Put_racing. case_decide as Hs.
  - assert (URLStoreV2.Count s = 0) as ->.
    { unfold URLStoreV2.Count. by rewrite Hs, map_size_empty. }
    change (genKey 0) with (@Ret string "0"%string). cbn beta iota.
    unfold URLStoreV2.Set_each, URLStoreV2.Set_. cbn [foldl].
    rewrite Hs, lookup_empty, insert_empty. cbn [URLStoreV2.save URLStoreV2.urls].
    unfold URLStore.send. by case_decide.
  - by rewrite genKey_positive by by apply V2_Count_positive.
Qed.

(** X21. In that version a collision ends the call in its own panic:
    when the store is empty at [Count] and another goroutine has taken
    ["0"] before [Set_], [Put] reaches [panic("shouldn't get here")]
    with nothing of its own bound or queued. *)
Theorem V2_Put_racing_panics
    (others : list record) (s : URLStoreV2.t) (url : string) :
  URLStoreV2.urls s = ∅ →
  is_Some (URLStoreV2.urls (URLStoreV2.Set_each others s) !! "0"%string) →
  URLStoreV2.Put_racing others s url
    = (URLStoreV2.ShouldntGetHere, URLStoreV2.Set_each others s).
Proof.
  intros Hs [u Hu]. unfold URLStoreV2.Put_racing.
  assert (URLStoreV2.Count s = 0) as ->.
  { unfold URLStoreV2.Count. by rewrite Hs, map_size_empty. }
  change (genKey 0) with (@Ret string "0"%string). cbn beta iota.
  unfold URLStoreV2.Set_. by rewrite Hu.
Qed.

Lemma V2_Put_racing_panics_witness :
  let rival := [{| Key := "0"; URL := "rival.com" |}] in
  let s := URLStoreV2.mk ∅ [] in
  URLStoreV2.urls s = ∅
  ∧ is_Some (URLStoreV2.urls (URLStoreV2.Set_each rival s) !! "0"%string)
  ∧ URLStoreV2.Put_racing rival s "a.com"
    = (URLStoreV2.ShouldntGetHere,
       URLStoreV2.mk {["0"%string := "rival.com"%string]} []).
Proof.
  intros rival s.
  assert (is_Some (URLStoreV2.urls (URLStoreV2.Set_each rival s) !! "0"%string)) as H
    by (eexists; reflexivity).
  split; [reflexivity|]. split; [exact H|].
  exact (V2_Put_racing_panics rival s "a.com" eq_refl H).
Defined.

(** X22. The earlier [Redirect] cannot tell a key that is not bound
    from a key bound to the empty string, and answers "not found" for
    both, where the later [Redirect] answers a key that is not bound
    with the error "key not found" and status 500; a key bound to a
    URL that is not empty is redirected by both. *)
Theorem Redirect_then_and_now
    (fuel : nat) (m : gmap string string) (q1 : list record)
    (q2 : option (list record)) (path key : string) :
  path_tail path = Ret key →
  key ≠ ""%string →
  MainV2.Redirect (URLStoreV2.mk m q1) path =
    Ret (match m !! key with
         | Some u => if decide (u = ""%string) then NotFound else Redirected u 302
         | None => NotFound
         end)
  ∧ (Redirect (H := URLStore_Store fuel) (URLStore.mk m q2) path).1 =
      Ret (match m !! key with
           | Some u => (Redirected u 302, [("Redirect: " ++ key ++ " -> " ++ u)%string])
           | None => (Error ErrKeyNotFound 500, [])
           end).
Proof.
  intros Hpath Hkey. split.
  - unfold MainV2.Redirect. rewrite Hpath. cbn [mbind outcome_mbind outcome_bind].
    unfold URLStoreV2.Get. cbn [URLStoreV2.urls].
    destruct (m !! key) as [u|]; cbn [default id]; [by case_decide|by rewrite decide_True].
  - unfold Redirect. rewrite Hpath, decide_False by done.
    cbn [Store_Get URLStore_Store]. unfold URLStore.Get. cbn [URLStore.urls].
    by destruct (m !! key).
Qed.

Lemma Redirect_then_and_now_witness :
  let m : gmap string string := {["0"%string := ""%string]} in
  path_tail "/7" = Ret "7"%string
  ∧ "7"%string ≠ ""%string
  ∧ MainV2.Redirect (URLStoreV2.mk m []) "/7" = Ret NotFound
  ∧ (Redirect (H := URLStore_Store 1) (URLStore.mk m None) "/7").1
      = Ret (Error ErrKeyNotFound 500, []).
Proof.
  intros m.
  assert ("7"%string ≠ ""%string) as Hne by discriminate.
  split; [reflexivity|]. split; [exact Hne|].
  exact (Redirect_then_and_now 1 m [] None "/7" "7" eq_refl Hne).
Defined.
